(** * Listing store and listing query service

    A shallow embedding of the four request handlers of the listing
    application (create, get, update, delete), of the listing schema they
    share, and of the part of the JavaScript and Mongoose semantics the
    handlers rely on.  Strings are ASCII strings; numbers that reach the
    database are integers; timestamps are milliseconds since the epoch. *)

From Stdlib Require Import String Ascii List ZArith QArith Bool Lia.
From Stdlib Require Import Sorting.Sorted Sorting.Permutation.
Import ListNotations.

Local Open Scope string_scope.
Local Open Scope Z_scope.

(** ** JavaScript built-ins used by the handlers *)

Module JS.

(** White space and line terminators in the ASCII range, as
    [String.prototype.trim] and [Number] strip them. *)
Definition isWhiteSpace (c : ascii) : bool :=
  let n := Z.of_N (N_of_ascii c) in
  ((9 <=? n) && (n <=? 13)) || (n =? 32).

Fixpoint trimStart (s : string) : string :=
  match s with
  | EmptyString => EmptyString
  | String c r => if isWhiteSpace c then trimStart r else s
  end.

Fixpoint trimEnd (s : string) : string :=
  match s with
  | EmptyString => EmptyString
  | String c r =>
      match trimEnd r with
      | EmptyString => if isWhiteSpace c then EmptyString else String c EmptyString
      | r' => String c r'
      end
  end.

(** [s.trim()] *)
Definition trim (s : string) : string := trimEnd (trimStart s).

Definition lower (c : ascii) : ascii :=
  let n := N_of_ascii c in
  if ((65 <=? n) && (n <=? 90))%N then ascii_of_N (n + 32) else c.

(** [s.toLowerCase()] *)
Fixpoint toLowerCase (s : string) : string :=
  match s with
  | EmptyString => EmptyString
  | String c r => String (lower c) (toLowerCase r)
  end.

(** A string is truthy when it is not empty. *)
Definition truthy (s : string) : bool :=
  match s with EmptyString => false | _ => true end.

(** The number type: NaN, the two infinities, and the finite binary64
    values, each given as the rational it is. *)
Inductive number : Type :=
| NaN
| Infinity (negative : bool)
| Finite (q : Q).

Definition isNaN (n : number) : bool :=
  match n with NaN => true | _ => false end.

(** [a / (d * 2^e)] rounded to the nearest integer, ties to even. *)
Definition roundQuotient (a d e : Z) : Z :=
  let num := if e <? 0 then a * 2 ^ (- e) else a in
  let den := if e <? 0 then d else d * 2 ^ e in
  let q := num / den in
  let r := num mod den in
  if 2 * r <? den then q
  else if den <? 2 * r then q + 1
  else if Z.even q then q else q + 1.

(** The binary64 value nearest to a rational (ties to even): a mantissa
    below 2^53 at an exponent from -1074 to 971, an infinity past the
    largest of them.  An integer up to 2^53 is such a value already. *)
Definition roundBinary64 (q : Q) : number :=
  let n := Qnum q in
  let d := Zpos (Qden q) in
  let a := Z.abs n in
  if (d =? 1) && (a <=? 9007199254740992) then Finite q
  else if a =? 0 then Finite (inject_Z 0)
  else
    let e0 := Z.log2 a - Z.log2 d - 52 in
    let below :=
      if e0 <? 0 then a * 2 ^ (- e0) <? 2 ^ 52 * d
      else a <? 2 ^ 52 * d * 2 ^ e0 in
    let e := Z.max (if below then e0 - 1 else e0) (-1074) in
    let m := roundQuotient a d e in
    let m' := if m =? 2 ^ 53 then 2 ^ 52 else m in
    let e' := if m =? 2 ^ 53 then e + 1 else e in
    if 971 <? e' then Infinity (n <? 0)
    else if 0 <=? e' then Finite (inject_Z (Z.sgn n * m' * 2 ^ e'))
    else Finite (Qred (Qmake (Z.sgn n * m') (Z.to_pos (2 ^ (- e'))))).

Definition decimalDigit (c : ascii) : option Z :=
  let n := Z.of_N (N_of_ascii c) in
  if (48 <=? n) && (n <=? 57) then Some (n - 48) else None.

Definition hexDigit (c : ascii) : option Z :=
  let n := Z.of_N (N_of_ascii c) in
  if (48 <=? n) && (n <=? 57) then Some (n - 48)
  else if (97 <=? n) && (n <=? 102) then Some (n - 87)
  else if (65 <=? n) && (n <=? 70) then Some (n - 55)
  else None.

Definition octalDigit (c : ascii) : option Z :=
  let n := Z.of_N (N_of_ascii c) in
  if (48 <=? n) && (n <=? 55) then Some (n - 48) else None.

Definition binaryDigit (c : ascii) : option Z :=
  let n := Z.of_N (N_of_ascii c) in
  if (48 <=? n) && (n <=? 49) then Some (n - 48) else None.

(** Value of a string made only of digits of the given radix. *)
Fixpoint digitsValue (radix : Z) (digit : ascii -> option Z) (acc : Z) (s : string)
  : option Z :=
  match s with
  | EmptyString => Some acc
  | String c r =>
      match digit c with
      | Some d => digitsValue radix digit (radix * acc + d) r
      | None => None
      end
  end.

(** A non-empty string of digits of the given radix. *)
Definition integerLiteral (radix : Z) (digit : ascii -> option Z) (s : string)
  : option Z :=
  match s with
  | EmptyString => None
  | _ => digitsValue radix digit 0 s
  end.

(** Longest prefix of decimal digits, and what follows it. *)
Fixpoint spanDigits (s : string) : string * string :=
  match s with
  | EmptyString => (EmptyString, EmptyString)
  | String c r =>
      match decimalDigit c with
      | Some _ => let (d, rest) := spanDigits r in (String c d, rest)
      | None => (EmptyString, s)
      end
  end.

(** ExponentPart, or nothing: [e], an optional sign, and digits up to the
    end of the string. *)
Definition exponentPart (s : string) : option Z :=
  match s with
  | EmptyString => Some 0
  | String c r =>
      if (Ascii.eqb c "e" || Ascii.eqb c "E")%char then
        match r with
        | String "+" ds => integerLiteral 10 decimalDigit ds
        | String "-" ds => option_map Z.opp (integerLiteral 10 decimalDigit ds)
        | _ => integerLiteral 10 decimalDigit r
        end
      else None
  end.

(** StrUnsignedDecimalLiteral: [Infinity], or digits with an optional
    fraction and an optional exponent; one of the integer and fraction
    parts may be empty but not both.  The value is the mantissa times a
    power of ten, rounded to binary64; a power of ten past 10^400 overflows
    whatever the non-zero mantissa, and a value below 10^-400 rounds to
    zero. *)
Definition unsignedDecimal (s : string) : number :=
  if String.eqb s "Infinity" then Infinity false
  else
    let (ip, r1) := spanDigits s in
    let (fp, r2) :=
      match r1 with
      | String "." r => spanDigits r
      | _ => (EmptyString, r1)
      end in
    match ip ++ fp with
    | EmptyString => NaN
    | mantissa =>
        match digitsValue 10 decimalDigit 0 mantissa, exponentPart r2 with
        | Some m, Some e =>
            let k := e - Z.of_nat (String.length fp) in
            if m =? 0 then Finite (inject_Z 0)
            else if 400 <? k then Infinity false
            else if k + Z.of_nat (String.length mantissa) <? -400
                 then Finite (inject_Z 0)
            else roundBinary64 (Qmult (inject_Z m) (Qpower (inject_Z 10) k))
        | _, _ => NaN
        end
    end.

Definition negate (n : number) : number :=
  match n with
  | NaN => NaN
  | Infinity b => Infinity (negb b)
  | Finite q => Finite (Qopp q)
  end.

Definition ofInteger (o : option Z) : number :=
  match o with Some z => roundBinary64 (inject_Z z) | None => NaN end.

(** StringToNumber on a string without surrounding white space. *)
Definition strNumericLiteral (s : string) : number :=
  match s with
  | EmptyString => Finite (inject_Z 0)
  | String "0" (String "x" r) | String "0" (String "X" r) =>
      ofInteger (integerLiteral 16 hexDigit r)
  | String "0" (String "o" r) | String "0" (String "O" r) =>
      ofInteger (integerLiteral 8 octalDigit r)
  | String "0" (String "b" r) | String "0" (String "B" r) =>
      ofInteger (integerLiteral 2 binaryDigit r)
  | String "+" r => unsignedDecimal r
  | String "-" r => negate (unsignedDecimal r)
  | _ => unsignedDecimal s
  end.

(** [Number(v)] for [v] a string, or [undefined] ([None]). *)
Definition Number (v : option string) : number :=
  match v with
  | None => NaN
  | Some s => strNumericLiteral (trim s)
  end.

(** The first decimal digit of a positive integer, given fuel for its
    digits. *)
Fixpoint firstDigit (fuel : nat) (z : Z) : Z :=
  match fuel with
  | O => z
  | S f => if z <? 10 then z else firstDigit f (z / 10)
  end.

(** The number of decimal digits of a positive integer, given fuel for
    them. *)
Fixpoint countDigits (fuel : nat) (z : Z) : Z :=
  match fuel with
  | O => 1
  | S f => if z <? 10 then 1 else 1 + countDigits f (z / 10)
  end.

(** Whether the decimal [s * 10^p] denotes the number [x]: [x] is the
    binary64 value nearest to it. *)
Definition denotes (s p x : Z) : bool :=
  (0 <? s)
  && match roundBinary64 (inject_Z (s * 10 ^ p)) with
     | Finite q => Qeq_bool q (inject_Z x)
     | _ => false
     end.

(** The digits [Number::toString] writes for a positive integer [x] of
    [n] decimal digits: the fewest digits [s], [k] of them or more, such that
    [s * 10^(n - k)] denotes [x]; of two such [s] the one nearer to [x], the
    even one when they are as near.  Nothing when the fuel runs out. *)
Fixpoint shortestDigits (fuel : nat) (x n k : Z) : option Z :=
  match fuel with
  | O => None
  | S f =>
      let p := n - k in
      let lo := x / 10 ^ p in
      let hi := lo + 1 in
      let r := x mod 10 ^ p in
      match denotes lo p x, denotes hi p x with
      | true, true =>
          if 2 * r <? 10 ^ p then Some lo
          else if 10 ^ p <? 2 * r then Some hi
          else if Z.even lo then Some lo else Some hi
      | true, false => Some lo
      | false, true => Some hi
      | false, false => shortestDigits f x n (k + 1)
      end
  end.

(** [parseInt(v)] for [v] an integer, or [undefined] ([None], giving NaN).
    [parseInt] reads the string of its argument: below 10^21 in absolute
    value that string is the decimal digits of the integer; from 10^21 on it
    is in exponent notation ([1e+21], [1.5e+21]), with the digits of the
    shortest decimal that denotes the argument, and [parseInt] stops after
    the first digit; past the largest binary64 value it is [Infinity], which
    [parseInt] reads as NaN. *)
Definition parseInt (v : option Z) : option Z :=
  match v with
  | None => None
  | Some z =>
      if Z.abs z <? 1000000000000000000000 then Some z
      else
        match roundBinary64 (inject_Z (Z.abs z)) with
        | Finite q =>
            let x := Qnum q in
            let n := countDigits (Z.to_nat (Z.log2 x)) x in
            let s := match shortestDigits (Z.to_nat n) x n 1 with
                     | Some s => s
                     | None => Z.abs z
                     end in
            Some (Z.sgn z * firstDigit (S (Z.to_nat (Z.log2 s))) s)
        | _ => None
        end
  end.

(** [n || d] for [n] the result of [parseInt]: NaN and 0 are falsy. *)
Definition orDefault (n : option Z) (d : Z) : Z :=
  match n with
  | Some z => if z =? 0 then d else z
  | None => d
  end.

End JS.

(** ** The listing schema and its documents *)

Definition ObjectId : Type := nat.

(** The thirteen paths of [listingSchema]; also the body of a create
    request and the [formData] of an update request, after casting. *)
Record FormData : Type := {
  projectName : string;
  unitName : string;
  unitNumber : Z;
  description : string;
  address : string;
  sell : bool;
  rent : bool;
  parkingSpot : bool;
  furnished : bool;
  offer : bool;
  beds : Z;
  baths : Z;
  regularPrice : Z
}.

(** A document of the listings collection.  [updatedAt] is a field a
    document may or may not carry. *)
Record Document : Type := {
  _id : ObjectId;
  fields : FormData;
  updatedAt : option Z
}.

(** What a schema contributes to the behaviour of its model: the declared
    paths and the [timestamps] option (off unless the schema is built with
    it). *)
Record Schema : Type := {
  paths : list string;
  timestamps : bool
}.

(** [new mongoose.Schema({ ... })]: thirteen paths, no options argument.
    Every path is [required] (see [validate]); the [unique] option of
    [unitName] and [unitNumber] declares an index, which the database
    enforces on an insert and on an update (see
    [Mongoose.duplicateKeyOnInsert] and [Mongoose.duplicateKey]). *)
Definition listingSchema : Schema := {|
  paths := ["projectName"; "unitName"; "unitNumber"; "description"; "address";
            "sell"; "rent"; "parkingSpot"; "furnished"; "offer";
            "beds"; "baths"; "regularPrice"];
  timestamps := false
|}.

(** The [required] validator of the string paths rejects the empty string;
    typed numbers and booleans pass it. *)
Definition validate (f : FormData) : bool :=
  JS.truthy (projectName f) && JS.truthy (unitName f)
  && JS.truthy (description f) && JS.truthy (address f).

(** ** Query filters *)

(** A regular-expression engine: a pattern and its options compile to a
    matcher, or the pattern is rejected. *)
Definition RegexEngine : Type := string -> string -> option (string -> bool).

(** The entries the get handler puts under [$or]. *)
Inductive Alternative : Type :=
| Eq_unitNumber (n : JS.number)
| Regex_projectName (pattern options : string)
| Regex_unitName (pattern options : string).

(** The top-level keys of a filter object. *)
Inductive Condition : Type :=
| Eq_userId (v : string)
| Eq_id (v : ObjectId)
| Or (alts : list Alternative).

Definition numberEqZ (n : JS.number) (z : Z) : bool :=
  match n with
  | JS.Finite q => Qeq_bool q (inject_Z z)
  | _ => false
  end.

Module Mongoose.

(** [connect] runs [mongoose.set("strictQuery", true)] before the first
    connection: filter keys that are not paths of the schema are dropped
    from a query. *)
Definition strictQuery : bool := true.

Definition inSchema (sch : Schema) (c : Condition) : bool :=
  match c with
  | Eq_userId _ => existsb (String.eqb "userId") (paths sch)
  | _ => true
  end.

Definition castFilter (sch : Schema) (f : list Condition) : list Condition :=
  if strictQuery then List.filter (inSchema sch) f else f.

Definition compileAlternative (re : RegexEngine) (a : Alternative)
  : option (Document -> bool) :=
  match a with
  | Eq_unitNumber n => Some (fun d => numberEqZ n (unitNumber (fields d)))
  | Regex_projectName p o =>
      option_map (fun m d => m (projectName (fields d))) (re p o)
  | Regex_unitName p o =>
      option_map (fun m d => m (unitName (fields d))) (re p o)
  end.

(** [$or]: some entry holds; the array must not be empty. *)
Fixpoint compileAlternatives (re : RegexEngine) (alts : list Alternative)
  : option (Document -> bool) :=
  match alts with
  | [] => Some (fun _ => false)
  | a :: r =>
      match compileAlternative re a, compileAlternatives re r with
      | Some f, Some g => Some (fun d => f d || g d)
      | _, _ => None
      end
  end.

Definition compileCondition (re : RegexEngine) (c : Condition)
  : option (Document -> bool) :=
  match c with
  | Eq_userId _ => Some (fun _ => false)
  | Eq_id v => Some (fun d => Nat.eqb (_id d) v)
  | Or [] => None
  | Or alts => compileAlternatives re alts
  end.

(** A filter object: every key holds. *)
Fixpoint compileFilter (re : RegexEngine) (f : list Condition)
  : option (Document -> bool) :=
  match f with
  | [] => Some (fun _ => true)
  | c :: r =>
      match compileCondition re c, compileFilter re r with
      | Some p, Some q => Some (fun d => p d && q d)
      | _, _ => None
      end
  end.

(** Order of [updatedAt] values under sort: a missing field sorts before
    every timestamp. *)
Definition keyLeb (a b : option Z) : bool :=
  match a, b with
  | None, _ => true
  | Some _, None => false
  | Some x, Some y => x <=? y
  end.

(** [before dir a b]: [a] may precede [b] when sorting on [updatedAt] in
    direction [dir] (1 ascending, -1 descending). *)
Definition before (dir : Z) (a b : Document) : bool :=
  if dir =? 1 then keyLeb (updatedAt a) (updatedAt b)
  else keyLeb (updatedAt b) (updatedAt a).

Fixpoint insertSorted (dir : Z) (d : Document) (l : list Document)
  : list Document :=
  match l with
  | [] => [d]
  | x :: r => if before dir d x then d :: x :: r else x :: insertSorted dir d r
  end.

(** [.sort({ updatedAt: dir })]; documents with equal keys keep their
    order in the collection. *)
Fixpoint sortByUpdatedAt (dir : Z) (l : list Document) : list Document :=
  match l with
  | [] => []
  | d :: r => insertSorted dir d (sortByUpdatedAt dir r)
  end.

(** [.limit(n)]: 0 is no limit, a negative limit counts as its absolute
    value. *)
Definition applyLimit (n : Z) (l : list Document) : list Document :=
  if n =? 0 then l else firstn (Z.abs_nat n) l.

Record Query : Type := {
  filter : list Condition;
  sort : Z;
  skip : Z;
  limit : Z
}.

(** [Model.find(filter).sort(..).skip(..).limit(..)] on the documents of
    the collection; [None] when the database rejects the query (a negative
    skip, a pattern that does not compile). *)
Definition find (re : RegexEngine) (sch : Schema) (docs : list Document)
  (q : Query) : option (list Document) :=
  if skip q <? 0 then None
  else
    match compileFilter re (castFilter sch (filter q)) with
    | None => None
    | Some p =>
        Some (applyLimit (limit q)
                (skipn (Z.to_nat (skip q))
                   (sortByUpdatedAt (sort q) (List.filter p docs))))
    end.

(** The collection behind a model: its documents in natural order, and
    the source of fresh identifiers. *)
Record Store : Type := {
  documents : list Document;
  nextId : ObjectId
}.

(** [Model.findOne(filter)], the filter given as a predicate. *)
Definition findOne (p : Document -> bool) (s : Store) : option Document :=
  List.find p (documents s).

Fixpoint updateFirst (id : ObjectId) (d' : Document) (docs : list Document)
  : list Document :=
  match docs with
  | [] => []
  | d :: r => if Nat.eqb (_id d) id then d' :: r else d :: updateFirst id d' r
  end.

Fixpoint removeFirst (id : ObjectId) (docs : list Document) : list Document :=
  match docs with
  | [] => []
  | d :: r => if Nat.eqb (_id d) id then r else d :: removeFirst id r
  end.

(** The unique indexes on [unitName] and [unitNumber] refuse the insert of
    a unit name or a unit number that a stored document has. *)
Definition duplicateKeyOnInsert (f : FormData) (docs : list Document) : bool :=
  existsb
    (fun x =>
       String.eqb (unitName (fields x)) (unitName f)
       || Z.eqb (unitNumber (fields x)) (unitNumber f))
    docs.

(** [Model.create(fields)] at time [now]: validation, then an insert with
    a fresh [_id]; the schema's [timestamps] option decides whether
    [updatedAt] is written.  [None] when validation throws or the insert
    throws a duplicate key error. *)
Definition create (sch : Schema) (now : Z) (s : Store) (f : FormData)
  : option (Store * Document) :=
  if validate f then
    if duplicateKeyOnInsert f (documents s) then None
    else
      let d := {| _id := nextId s;
                  fields := f;
                  updatedAt := if timestamps sch then Some now else None |} in
      Some ({| documents := documents s ++ [d]; nextId := S (nextId s) |}, d)
  else None.

(** They refuse as well a write that gives the document under [id] a new
    unit name or a new unit number that a document under another identifier
    has. *)
Definition duplicateKey (id : ObjectId) (d : Document) (f : FormData)
  (docs : list Document) : bool :=
  existsb
    (fun x =>
       negb (Nat.eqb (_id x) id)
       && ((negb (String.eqb (unitName f) (unitName (fields d)))
            && String.eqb (unitName (fields x)) (unitName f))
           || (negb (Z.eqb (unitNumber f) (unitNumber (fields d)))
               && Z.eqb (unitNumber (fields x)) (unitNumber f))))
    docs.

(** [Model.findByIdAndUpdate(id, { $set: fields }, { new: true })] at time
    [now]: the updated document, or nothing when no document has [id];
    [None] when the write throws a duplicate key error. *)
Definition findByIdAndUpdate (sch : Schema) (now : Z) (s : Store)
  (id : ObjectId) (f : FormData) : option (Store * option Document) :=
  match List.find (fun d => Nat.eqb (_id d) id) (documents s) with
  | None => Some (s, None)
  | Some d =>
      if duplicateKey id d f (documents s) then None
      else
        let d' := {| _id := _id d;
                     fields := f;
                     updatedAt := if timestamps sch then Some now
                                  else updatedAt d |} in
        Some ({| documents := updateFirst id d' (documents s);
                 nextId := nextId s |},
              Some d')
  end.

(** [Model.findByIdAndDelete(id)]: the removed document, or nothing. *)
Definition findByIdAndDelete (s : Store) (id : ObjectId)
  : Store * option Document :=
  match List.find (fun d => Nat.eqb (_id d) id) (documents s) with
  | None => (s, None)
  | Some d =>
      ({| documents := removeFirst id (documents s); nextId := nextId s |},
       Some d)
  end.

End Mongoose.

(** [mongoose.model("Listing", listingSchema)] *)
Module Listing.
Definition find (re : RegexEngine) (s : Mongoose.Store) (q : Mongoose.Query) :=
  Mongoose.find re listingSchema (Mongoose.documents s) q.
Definition findOne := Mongoose.findOne.
Definition create := Mongoose.create listingSchema.
Definition findByIdAndUpdate := Mongoose.findByIdAndUpdate listingSchema.
Definition findByIdAndDelete := Mongoose.findByIdAndDelete.
End Listing.

(** ** The request handlers *)

Inductive Body : Type :=
| IdSuccess (id : ObjectId)        (* { id, success: true } *)
| Failure (message : string)       (* { success: false, message } *)
| Success (message : string)       (* { success: true, message } *)
| Listings (l : list Document).    (* the array of documents *)

Record Response : Type := {
  body : Body;
  status : Z
}.

(** The failures the handlers report, under the names of the error
    taxonomy. *)
Definition DuplicateUnitName : Response :=
  {| body := Failure "Unit Name already exists. Please choose a unique Unit Name.";
     status := 400 |}.

Definition DuplicateUnitNumber : Response :=
  {| body := Failure "Unit Number already exists. Please choose a unique Unit Number.";
     status := 400 |}.

Definition NotFound : Response :=
  {| body := Failure "Listing not found"; status := 404 |}.

Module Create.

(** The create handler at time [now]: the two uniqueness probes, then the
    insert.  The [save] that follows [Listing.create] finds nothing modified
    and writes nothing.  A validation error and a duplicate key error of the
    insert both reach the catch clause. *)
Definition POST (now : Z) (s : Mongoose.Store) (data : FormData)
  : Mongoose.Store * Response :=
  match Listing.findOne
          (fun d => String.eqb (unitName (fields d)) (unitName data)) s with
  | Some _ => (s, DuplicateUnitName)
  | None =>
      match Listing.findOne
              (fun d => Z.eqb (unitNumber (fields d)) (unitNumber data)) s with
      | Some _ => (s, DuplicateUnitNumber)
      | None =>
          match Listing.create now s data with
          | Some (s', newListing) =>
              (s', {| body := IdSuccess (_id newListing); status := 200 |})
          | None =>
              (s, {| body := Failure "Internal Server Error. Please try again later.";
                     status := 500 |})
          end
      end
  end.

End Create.

Module Get.

(** The body of a get request; every field may be absent. *)
Record Data : Type := {
  startIndex : option Z;
  limit : option Z;
  order : option string;
  searchTerm : option string;
  userId : option string;
  listingId : option ObjectId
}.

(** [...(data.userId && { userId: data.userId })] *)
Definition userIdKey (data : Data) : list Condition :=
  match userId data with
  | Some u => if JS.truthy u then [Eq_userId u] else []
  | None => []
  end.

(** [...(data.listingId && { _id: data.listingId })] *)
Definition listingIdKey (data : Data) : list Condition :=
  match listingId data with
  | Some i => [Eq_id i]
  | None => []
  end.

(** [!isNaN(Number(data.searchTerm?.trim()))] *)
Definition isNumericSearch (data : Data) : bool :=
  negb (JS.isNaN (JS.Number (option_map JS.trim (searchTerm data)))).

(** [...(data.searchTerm?.trim() && { $or: ... })] *)
Definition searchTermKey (data : Data) : list Condition :=
  match searchTerm data with
  | Some t =>
      if JS.truthy (JS.trim t) then
        [Or (if isNumericSearch data
             then [Eq_unitNumber (JS.Number (Some (JS.trim t)))]
             else [Regex_projectName (JS.toLowerCase (JS.trim t)) "i";
                   Regex_unitName (JS.toLowerCase (JS.trim t)) "i"])]
      else []
  | None => []
  end.

Definition sortDirection (data : Data) : Z :=
  match order data with
  | Some o => if String.eqb o "asc" then 1 else -1
  | None => -1
  end.

Definition query (data : Data) : Mongoose.Query :=
  {| Mongoose.filter := userIdKey data ++ listingIdKey data ++ searchTermKey data;
     Mongoose.sort := sortDirection data;
     Mongoose.skip := JS.orDefault (JS.parseInt (startIndex data)) 0;
     Mongoose.limit := JS.orDefault (JS.parseInt (limit data)) 9 |}.

(** The get handler: the store is read, never written. *)
Definition POST (re : RegexEngine) (s : Mongoose.Store) (data : Data) : Response :=
  match Listing.find re s (query data) with
  | Some listings => {| body := Listings listings; status := 200 |}
  | None => {| body := Failure "Internal Server Error"; status := 500 |}
  end.

End Get.

Module Update.

Record Data : Type := {
  listingId : ObjectId;
  formData : FormData
}.

(** The update handler at time [now]. *)
Definition POST (now : Z) (s : Mongoose.Store) (data : Data)
  : Mongoose.Store * Response :=
  match Listing.findByIdAndUpdate now s (listingId data) (formData data) with
  | Some (s', None) => (s', NotFound)
  | Some (s', Some updatedPost) =>
      (s', {| body := IdSuccess (_id updatedPost); status := 200 |})
  | None => (s, {| body := Failure "Error updating post"; status := 500 |})
  end.

End Update.

Module Delete.

(** The delete handler. *)
Definition DELETE (s : Mongoose.Store) (listingId : ObjectId)
  : Mongoose.Store * Response :=
  match Listing.findByIdAndDelete s listingId with
  | (s', None) => (s', {| body := Failure "Property not found."; status := 404 |})
  | (s', Some _) =>
      (s', {| body := Success "Property deleted successfully."; status := 200 |})
  end.

End Delete.

(** ** A reference regular-expression engine

    The database's engine is a parameter of the model.  This one runs the
    patterns built from ordinary characters and [.] (any character but a
    line feed), with no option or with option [i]; it compiles no other
    pattern. *)

Module Regex.

Definition isMeta (c : ascii) : bool :=
  existsb (Ascii.eqb c)
    ["\"; "^"; "$"; "."; "|"; "?"; "*"; "+"; "("; ")"; "["; "]"; "{"; "}"]%char.

Fixpoint allChars (f : ascii -> bool) (s : string) : bool :=
  match s with
  | EmptyString => true
  | String c r => f c && allChars f r
  end.

(** A pattern without metacharacters. *)
Definition literal (p : string) : bool := allChars (fun c => negb (isMeta c)) p.

Inductive Atom : Type :=
| Any
| Chr (c : ascii).

Fixpoint parse (p : string) : option (list Atom) :=
  match p with
  | EmptyString => Some []
  | String c r =>
      if Ascii.eqb c "." then option_map (cons Any) (parse r)
      else if isMeta c then None
      else option_map (cons (Chr c)) (parse r)
  end.

Definition atomMatches (caseless : bool) (a : Atom) (x : ascii) : bool :=
  match a with
  | Any => negb (Ascii.eqb x "010")
  | Chr c => if caseless then Ascii.eqb (JS.lower c) (JS.lower x) else Ascii.eqb c x
  end.

Fixpoint matchHere (caseless : bool) (atoms : list Atom) (s : string) : bool :=
  match atoms with
  | [] => true
  | a :: r =>
      match s with
      | EmptyString => false
      | String x s' => atomMatches caseless a x && matchHere caseless r s'
      end
  end.

(** An unanchored pattern matches when it matches at some position. *)
Fixpoint search (caseless : bool) (atoms : list Atom) (s : string) : bool :=
  matchHere caseless atoms s
  || match s with
     | EmptyString => false
     | String _ s' => search caseless atoms s'
     end.

Definition engine : RegexEngine :=
  fun pattern options =>
    match parse pattern with
    | Some atoms =>
        if String.eqb options "i" then Some (search true atoms)
        else if String.eqb options "" then Some (search false atoms)
        else None
    | None => None
    end.

End Regex.

(** ** Vocabulary of the properties *)

(** [s] contains [term] as a substring, ignoring case. *)
Definition containsIgnoringCase (term s : string) : Prop :=
  exists pre post, JS.toLowerCase s = pre ++ JS.toLowerCase term ++ post.

(** The number [n] is the integer [z]. *)
Definition equalsNumber (n : JS.number) (z : Z) : Prop :=
  exists q, n = JS.Finite q /\ Qeq q (inject_Z z).

(** [a] may stand before [b] in a result sorted in direction [dir]. *)
Definition precedes (dir : Z) (a b : Document) : Prop :=
  Mongoose.before dir a b = true.

(** [updatedAt] does not decrease, resp. increase, from [a] to [b]; a
    document without the field counts as older than any timestamp. *)
Definition notNewer (a b : Document) : Prop :=
  Mongoose.keyLeb (updatedAt a) (updatedAt b) = true.

Definition notOlder (a b : Document) : Prop :=
  Mongoose.keyLeb (updatedAt b) (updatedAt a) = true.

(** An engine that reads a pattern without metacharacters, under option
    [i], as a substring search ignoring case. *)
Definition literalEngine (re : RegexEngine) : Prop :=
  forall p, Regex.literal p = true ->
    exists m, re p "i" = Some m
              /\ forall s, m s = true <-> containsIgnoringCase p s.

(** A search term that is absent, empty or made of white space only. *)
Definition blank (t : option string) : Prop :=
  match t with
  | None => True
  | Some s => Regex.allChars JS.isWhiteSpace s = true
  end.

(** [Number.MAX_SAFE_INTEGER], 2^53 - 1: up to it every integer is a
    binary64 value, and a JSON number is the integer written. *)
Definition maxSafeInteger : Z := 9007199254740991.

(** The predicate a get request selects documents with. *)
Definition matching (re : RegexEngine) (data : Get.Data) : option (Document -> bool) :=
  Mongoose.compileFilter re
    (Mongoose.castFilter listingSchema (Mongoose.filter (Get.query data))).

(** The predicate of the [userId] and [listingId] keys alone. *)
Definition otherFilters (re : RegexEngine) (data : Get.Data) : option (Document -> bool) :=
  Mongoose.compileFilter re
    (Mongoose.castFilter listingSchema (Get.userIdKey data ++ Get.listingIdKey data)).

Definition withOrder (data : Get.Data) (o : option string) : Get.Data :=
  {| Get.startIndex := Get.startIndex data;
     Get.limit := Get.limit data;
     Get.order := o;
     Get.searchTerm := Get.searchTerm data;
     Get.userId := Get.userId data;
     Get.listingId := Get.listingId data |}.

Definition withSearchTerm (data : Get.Data) (t : option string) : Get.Data :=
  {| Get.startIndex := Get.startIndex data;
     Get.limit := Get.limit data;
     Get.order := Get.order data;
     Get.searchTerm := t;
     Get.userId := Get.userId data;
     Get.listingId := Get.listingId data |}.

(** The store is well formed when identifiers are unique and below the
    next fresh one. *)
Definition wellFormed (s : Mongoose.Store) : Prop :=
  NoDup (map _id (Mongoose.documents s))
  /\ forall d, In d (Mongoose.documents s) -> (_id d < Mongoose.nextId s)%nat.

(** ** Sample data *)

Definition emptyStore : Mongoose.Store :=
  {| Mongoose.documents := []; Mongoose.nextId := 0%nat |}.

Definition listing (project unit : string) (number : Z) : FormData :=
  {| projectName := project; unitName := unit; unitNumber := number;
     description := "A spacious 2-bedroom apartment.";
     address := "123 Main St, City, Country";
     sell := true; rent := false; parkingSpot := true; furnished := true;
     offer := false; beds := 2; baths := 2; regularPrice := 2000 |}.

Definition sunrise : FormData := listing "Sunrise Apartments" "Unit A" 101.

Definition document (id : ObjectId) (f : FormData) (t : option Z) : Document :=
  {| _id := id; fields := f; updatedAt := t |}.

(** Three documents, one of them written without [updatedAt]. *)
Definition sampleStore : Mongoose.Store :=
  {| Mongoose.documents :=
       [document 0%nat sunrise (Some 300);
        document 1%nat (listing "Tower 101" "Unit B" 202) None;
        document 2%nat (listing "Palm Hills" "abc" 303) (Some 100)];
     Mongoose.nextId := 3%nat |}.

Definition request (term : option string) (o : option string) : Get.Data :=
  {| Get.startIndex := None; Get.limit := None; Get.order := o;
     Get.searchTerm := term; Get.userId := None; Get.listingId := None |}.

(** Twenty documents, the [i]-th written at time [i]. *)
Definition twentyStore : Mongoose.Store :=
  {| Mongoose.documents :=
       map (fun i => document i
                       (listing "Palm Hills"
                          ("Unit " ++ String (ascii_of_nat (65 + i)) EmptyString)
                          (Z.of_nat i))
                       (Some (Z.of_nat i)))
           (seq 0 20);
     Mongoose.nextId := 20%nat |}.

Definition secondPage : Get.Data :=
  {| Get.startIndex := Some 9; Get.limit := Some 9; Get.order := None;
     Get.searchTerm := None; Get.userId := None; Get.listingId := None |}.

(** The request the detail page sends: [{ listingId: id }]. *)
Definition byId (id : ObjectId) : Get.Data :=
  {| Get.startIndex := None; Get.limit := None; Get.order := None;
     Get.searchTerm := None; Get.userId := None; Get.listingId := Some id |}.

Definition greenPark : FormData := listing "Green Park" "Unit C" 404.

(** [listingSchema] as it would be with [{ timestamps: true }]. *)
Definition timestampedSchema : Schema :=
  {| paths := paths listingSchema; timestamps := true |}.

Definition window (start lim : option Z) : Get.Data :=
  {| Get.startIndex := start; Get.limit := lim; Get.order := None;
     Get.searchTerm := None; Get.userId := None; Get.listingId := None |}.

(** A mutating request, with the time at which it is served. *)
Inductive Mutation : Type :=
| CreateAt (now : Z) (data : FormData)
| UpdateAt (now : Z) (data : Update.Data)
| DeleteOf (listingId : ObjectId).

Definition serve (s : Mongoose.Store) (m : Mutation) : Mongoose.Store :=
  match m with
  | CreateAt now data => fst (Create.POST now s data)
  | UpdateAt now data => fst (Update.POST now s data)
  | DeleteOf listingId => fst (Delete.DELETE s listingId)
  end.

(** The store after a sequence of mutating requests. *)
Definition serveAll (s : Mongoose.Store) (ms : list Mutation) : Mongoose.Store :=
  fold_left serve ms s.

Definition unstamped (s : Mongoose.Store) : Prop :=
  Forall (fun d => updatedAt d = None) (Mongoose.documents s).

(** ** The cached database connection *)

Module Connection.

(** The promise of [mongoose.connect(..).then(..).catch(..)], once
    settled. *)
Inductive Promise : Type :=
| Resolved
| Rejected (err : string).

(** [CachedConnection]: [conn] is the connection or null, [promise] the
    promise of the one connection attempt or null. *)
Record CachedConnection : Type := {
  conn : bool;
  promise : option Promise
}.

(** The process-wide state [connect] works on: the cached connection, the
    global [strictQuery] option, and how many times [mongoose.connect] was
    called. *)
Record Global : Type := {
  cached : CachedConnection;
  strictQuery : bool;
  attempts : nat
}.

(** A fresh process: [{ conn: null, promise: null }]. *)
Definition fresh : Global :=
  {| cached := {| conn := false; promise := None |};
     strictQuery := false;
     attempts := 0%nat |}.

Inductive Outcome : Type :=
| Connected
| Throws (err : string).

(** [connect()]; [driver] is how [mongoose.connect] settles if this call
    invokes it. *)
Definition connect (driver : Promise) (g : Global) : Global * Outcome :=
  if conn (cached g) then (g, Connected)
  else
    let g1 :=
      match promise (cached g) with
      | Some _ => g
      | None =>
          {| cached := {| conn := conn (cached g); promise := Some driver |};
             strictQuery := true;
             attempts := S (attempts g) |}
      end in
    match promise (cached g1) with
    | Some (Rejected err) => (g1, Throws err)
    | _ =>
        ({| cached := {| conn := true; promise := promise (cached g1) |};
            strictQuery := strictQuery g1;
            attempts := attempts g1 |},
         Connected)
    end.

(** The state after a sequence of [connect] calls, each with what the
    driver would do at that moment. *)
Definition connectAll (g : Global) (drivers : list Promise) : Global :=
  fold_left (fun g d => fst (connect d g)) drivers g.

End Connection.

(** ** The handlers behind their connection

    Create and update connect inside their [try]; get and delete connect
    before it, so that a connection error escapes them ([None]). *)

Module Route.

Definition create (driver : Connection.Promise) (g : Connection.Global)
  (now : Z) (s : Mongoose.Store) (data : FormData)
  : Connection.Global * Mongoose.Store * Response :=
  match Connection.connect driver g with
  | (g', Connection.Connected) =>
      let (s', r) := Create.POST now s data in (g', s', r)
  | (g', Connection.Throws _) =>
      (g', s, {| body := Failure "Internal Server Error. Please try again later.";
                 status := 500 |})
  end.

Definition update (driver : Connection.Promise) (g : Connection.Global)
  (now : Z) (s : Mongoose.Store) (data : Update.Data)
  : Connection.Global * Mongoose.Store * Response :=
  match Connection.connect driver g with
  | (g', Connection.Connected) =>
      let (s', r) := Update.POST now s data in (g', s', r)
  | (g', Connection.Throws _) =>
      (g', s, {| body := Failure "Error updating post"; status := 500 |})
  end.

Definition get (re : RegexEngine) (driver : Connection.Promise)
  (g : Connection.Global) (s : Mongoose.Store) (data : Get.Data)
  : Connection.Global * option Response :=
  match Connection.connect driver g with
  | (g', Connection.Connected) => (g', Some (Get.POST re s data))
  | (g', Connection.Throws _) => (g', None)
  end.

Definition delete (driver : Connection.Promise) (g : Connection.Global)
  (s : Mongoose.Store) (listingId : ObjectId)
  : Connection.Global * Mongoose.Store * option Response :=
  match Connection.connect driver g with
  | (g', Connection.Connected) =>
      let (s', r) := Delete.DELETE s listingId in (g', s', Some r)
  | (g', Connection.Throws _) => (g', s, None)
  end.

End Route.

(** ** The pages that call the handlers *)

Module URLSearchParams.

(** The name-value pairs of a query string, in order. *)
Definition t : Type := list (string * string).

(** [params.get(name)]: the first value under [name], or null. *)
Fixpoint get (name : string) (p : t) : option string :=
  match p with
  | [] => None
  | (n, v) :: r => if String.eqb n name then Some v else get name r
  end.

Fixpoint remove (name : string) (p : t) : t :=
  match p with
  | [] => []
  | (n, v) :: r => if String.eqb n name then remove name r else (n, v) :: remove name r
  end.

(** [params.set(name, value)]: the first pair under [name] takes the value
    and the others are removed; without such a pair one is appended. *)
Fixpoint set (name value : string) (p : t) : t :=
  match p with
  | [] => [(name, value)]
  | (n, v) :: r =>
      if String.eqb n name then (name, value) :: remove name r
      else (n, v) :: set name value r
  end.

End URLSearchParams.

(** [b.toString()] *)
Definition boolToString (b : bool) : string := if b then "true" else "false".

(** A value read from the query string is truthy when present and not
    empty. *)
Definition present (v : option string) : bool :=
  match v with Some x => JS.truthy x | None => false end.

Module SearchPage.

Record SidebarData : Type := {
  searchTerm : string;
  sell : bool;
  rent : bool;
  parkingSpot : bool;
  furnished : bool;
  offer : bool
}.

(** The initial state of [sidebardata]. *)
Definition initial : SidebarData :=
  {| searchTerm := ""; sell := true; rent := false; parkingSpot := false;
     furnished := false; offer := false |}.

(** [handleSubmit]: the query string the page navigates to. *)
Definition handleSubmit (sidebardata : SidebarData) : URLSearchParams.t :=
  URLSearchParams.set "offer" (boolToString (offer sidebardata))
    (URLSearchParams.set "furnished" (boolToString (furnished sidebardata))
       (URLSearchParams.set "parking" (boolToString (parkingSpot sidebardata))
          (URLSearchParams.set "rent" (boolToString (rent sidebardata))
             (URLSearchParams.set "sell" (boolToString (sell sidebardata))
                (URLSearchParams.set "searchTerm" (searchTerm sidebardata) []))))).

Definition isTrue (v : option string) : bool :=
  match v with Some x => String.eqb x "true" | None => false end.

(** The effect on [searchParams]: the next value of [sidebardata]. *)
Definition readParams (searchParams : URLSearchParams.t) (sidebardata : SidebarData)
  : SidebarData :=
  let searchTermFromUrl := URLSearchParams.get "searchTerm" searchParams in
  let sellFromUrl := URLSearchParams.get "sell" searchParams in
  let rentFromUrl := URLSearchParams.get "rent" searchParams in
  let parkingFromUrl := URLSearchParams.get "parkingSpot" searchParams in
  let furnishedFromUrl := URLSearchParams.get "furnished" searchParams in
  let offerFromUrl := URLSearchParams.get "offer" searchParams in
  if present searchTermFromUrl || present sellFromUrl || present rentFromUrl
     || present parkingFromUrl || present furnishedFromUrl || present offerFromUrl
  then
    {| searchTerm := match searchTermFromUrl with
                     | Some x => if JS.truthy x then x else ""
                     | None => ""
                     end;
       sell := isTrue sellFromUrl;
       rent := isTrue rentFromUrl;
       parkingSpot := isTrue parkingFromUrl;
       furnished := isTrue furnishedFromUrl;
       offer := isTrue offerFromUrl |}
  else sidebardata.

(** The keys of the body of [fetchListings] that the get handler reads. *)
Definition fetchBody (sidebardata : SidebarData) : Get.Data :=
  {| Get.startIndex := Some 0; Get.limit := Some 9; Get.order := None;
     Get.searchTerm := Some (searchTerm sidebardata);
     Get.userId := None; Get.listingId := None |}.

(** [fetchListings]: the next values of [listings] and [showMore]. *)
Definition fetchListings (re : RegexEngine) (s : Mongoose.Store)
  (sidebardata : SidebarData) : list Document * bool :=
  let res := Get.POST re s (fetchBody sidebardata) in
  if negb ((200 <=? status res) && (status res <=? 299)) then ([], false)
  else
    match body res with
    | Listings data => (data, (8 <? length data)%nat)
    | _ => ([], false)
    end.

End SearchPage.

Module Header.

(** [handleSubmit]: the query string the header navigates to. *)
Definition handleSubmit (searchParams : URLSearchParams.t) (searchTerm : string)
  : URLSearchParams.t :=
  URLSearchParams.set "searchTerm" searchTerm searchParams.

(** The effect on [searchParams]: the next value of [searchTerm]. *)
Definition readParams (searchParams : URLSearchParams.t) (searchTerm : string)
  : string :=
  match URLSearchParams.get "searchTerm" searchParams with
  | Some x => if JS.truthy x then x else searchTerm
  | None => searchTerm
  end.

End Header.

Module Home.

(** The body the home page posts: [{ limit: 8, order: 'asc' }]. *)
Definition request : Get.Data :=
  {| Get.startIndex := None; Get.limit := Some 8; Get.order := Some "asc";
     Get.searchTerm := None; Get.userId := None; Get.listingId := None |}.

End Home.

Module Post.

(** The listing the detail page shows: [data[0]] of the answer to
    [{ listingId }], if any. *)
Definition listing (re : RegexEngine) (s : Mongoose.Store) (id : ObjectId)
  : option Document :=
  match body (Get.POST re s (byId id)) with
  | Listings data => hd_error data
  | _ => None
  end.

End Post.

(** ** Vocabulary of the further properties *)

(** The document of the store under an identifier. *)
Definition lookup (s : Mongoose.Store) (id : ObjectId) : option Document :=
  List.find (fun d => Nat.eqb (_id d) id) (Mongoose.documents s).

(** No two documents share a [unitName] or a [unitNumber]. *)
Definition uniqueUnits (s : Mongoose.Store) : Prop :=
  NoDup (map (fun d => unitName (fields d)) (Mongoose.documents s))
  /\ NoDup (map (fun d => unitNumber (fields d)) (Mongoose.documents s)).

Definition isUpdate (m : Mutation) : bool :=
  match m with UpdateAt _ _ => true | _ => false end.

Definition withWindow (data : Get.Data) (start lim : Z) : Get.Data :=
  {| Get.startIndex := Some start;
     Get.limit := Some lim;
     Get.order := Get.order data;
     Get.searchTerm := Get.searchTerm data;
     Get.userId := Get.userId data;
     Get.listingId := Get.listingId data |}.

Definition ok (r : Response) : bool := status r =? 200.

(** A state in which the one connection attempt has been made and has
    settled as [o]. *)
Definition settled (o : Connection.Outcome) (g : Connection.Global) : Prop :=
  Connection.attempts g = 1%nat
  /\ Connection.strictQuery g = true
  /\ match o with
     | Connection.Connected =>
         Connection.conn (Connection.cached g) = true
     | Connection.Throws err =>
         Connection.conn (Connection.cached g) = false
         /\ Connection.promise (Connection.cached g)
            = Some (Connection.Rejected err)
     end.

(** A string that is empty or starts with a character that is not white
    space. *)
Definition startsClean (x : string) : Prop :=
  match x with
  | EmptyString => True
  | String c _ => JS.isWhiteSpace c = false
  end.

Definition isDigit (c : ascii) : bool :=
  match JS.decimalDigit c with Some _ => true | None => false end.

(** The integer a string of decimal digits denotes. *)
Fixpoint decimalValue (acc : Z) (t : string) : Z :=
  match t with
  | EmptyString => acc
  | String c r => decimalValue (10 * acc + (Z.of_N (N_of_ascii c) - 48)) r
  end.

Definition withUserId (data : Get.Data) (u : option string) : Get.Data :=
  {| Get.startIndex := Get.startIndex data;
     Get.limit := Get.limit data;
     Get.order := Get.order data;
     Get.searchTerm := Get.searchTerm data;
     Get.userId := u;
     Get.listingId := Get.listingId data |}.

(** * Properties *)

(** ** Sorting on [updatedAt] *)

Section Sorting.

Variable dir : Z.

Lemma keyLeb_total (a b : option Z) :
  Mongoose.keyLeb a b = true \/ Mongoose.keyLeb b a = true.
Proof.
  destruct a as [x|], b as [y|]; simpl; auto.
  destruct (Z.leb_spec x y); [left | right]; [reflexivity | apply Z.leb_le; lia].
Qed.

Lemma keyLeb_trans (a b c : option Z) :
  Mongoose.keyLeb a b = true -> Mongoose.keyLeb b c = true ->
  Mongoose.keyLeb a c = true.
Proof.
  destruct a as [x|], b as [y|], c as [z|]; simpl; try congruence.
  rewrite !Z.leb_le. lia.
Qed.

Lemma before_total (a b : Document) : precedes dir a b \/ precedes dir b a.
Proof.
  unfold precedes, Mongoose.before. destruct (dir =? 1); apply keyLeb_total.
Qed.

Lemma before_trans (a b c : Document) :
  precedes dir a b -> precedes dir b c -> precedes dir a c.
Proof.
  unfold precedes, Mongoose.before. destruct (dir =? 1); intros H1 H2.
  - exact (keyLeb_trans _ _ _ H1 H2).
  - exact (keyLeb_trans _ _ _ H2 H1).
Qed.

Lemma insertSorted_perm (d : Document) (l : list Document) :
  Permutation (d :: l) (Mongoose.insertSorted dir d l).
Proof.
  induction l as [|x r IH]; simpl.
  - apply Permutation_refl.
  - destruct (Mongoose.before dir d x).
    + apply Permutation_refl.
    + eapply perm_trans; [apply perm_swap | apply perm_skip, IH].
Qed.

Lemma sortByUpdatedAt_perm (l : list Document) :
  Permutation l (Mongoose.sortByUpdatedAt dir l).
Proof.
  induction l as [|d r IH]; simpl.
  - apply perm_nil.
  - eapply perm_trans; [apply perm_skip, IH | apply insertSorted_perm].
Qed.

Lemma insertSorted_sorted (d : Document) (l : list Document) :
  StronglySorted (precedes dir) l ->
  StronglySorted (precedes dir) (Mongoose.insertSorted dir d l).
Proof.
  induction 1 as [|x r Hr IH Hx]; simpl.
  - repeat constructor.
  - destruct (Mongoose.before dir d x) eqn:E.
    + constructor; [constructor; assumption|].
      constructor; [exact E|].
      rewrite Forall_forall in *. intros y Hy.
      eapply before_trans; [exact E | apply Hx, Hy].
    + constructor; [exact IH|].
      rewrite Forall_forall in *. intros y Hy.
      apply (Permutation_in _ (Permutation_sym (insertSorted_perm d r))) in Hy.
      destruct Hy as [<- | Hy]; [| apply Hx, Hy].
      destruct (before_total d x) as [H | H]; [unfold precedes in H; congruence | exact H].
Qed.

Lemma sortByUpdatedAt_sorted (l : list Document) :
  StronglySorted (precedes dir) (Mongoose.sortByUpdatedAt dir l).
Proof.
  induction l as [|d r IH]; simpl; [constructor | apply insertSorted_sorted, IH].
Qed.

Lemma StronglySorted_skipn (n : nat) (l : list Document) :
  StronglySorted (precedes dir) l -> StronglySorted (precedes dir) (skipn n l).
Proof.
  revert l. induction n as [|n IH]; intros l H; [exact H|].
  destruct l as [|x r]; [constructor|]. simpl. apply IH.
  inversion H; assumption.
Qed.

Lemma StronglySorted_firstn (n : nat) (l : list Document) :
  StronglySorted (precedes dir) l -> StronglySorted (precedes dir) (firstn n l).
Proof.
  revert l. induction n as [|n IH]; intros l H; [constructor|].
  destruct l as [|x r]; [constructor|]. simpl.
  inversion H as [|? ? Hr Hx]; subst. constructor; [apply IH, Hr|].
  rewrite Forall_forall in *. intros y Hy. apply Hx.
  rewrite <- (firstn_skipn n r). apply in_or_app. left. exact Hy.
Qed.

Lemma applyLimit_sorted (n : Z) (l : list Document) :
  StronglySorted (precedes dir) l -> StronglySorted (precedes dir) (Mongoose.applyLimit n l).
Proof.
  unfold Mongoose.applyLimit. destruct (n =? 0); [auto | apply StronglySorted_firstn].
Qed.

End Sorting.

(** ** The get handler *)

(** What the handler answers, in terms of the predicate its filter compiles
    to. *)
Lemma Get_POST_eq (re : RegexEngine) (s : Mongoose.Store) (data : Get.Data) :
  Get.POST re s data =
  let q := Get.query data in
  if Mongoose.skip q <? 0
  then {| body := Failure "Internal Server Error"; status := 500 |}
  else match matching re data with
       | Some p =>
           {| body := Listings
                (Mongoose.applyLimit (Mongoose.limit q)
                   (skipn (Z.to_nat (Mongoose.skip q))
                      (Mongoose.sortByUpdatedAt (Mongoose.sort q)
                         (List.filter p (Mongoose.documents s)))));
              status := 200 |}
       | None => {| body := Failure "Internal Server Error"; status := 500 |}
       end.
Proof.
  unfold Get.POST, Listing.find, Mongoose.find, matching. simpl.
  destruct (JS.orDefault (JS.parseInt (Get.startIndex data)) 0 <? 0); [reflexivity|].
  destruct (Mongoose.compileFilter _ _); reflexivity.
Qed.

Lemma Get_POST_sorted (re : RegexEngine) (s : Mongoose.Store) (data : Get.Data)
  (l : list Document) :
  Get.POST re s data = {| body := Listings l; status := 200 |} ->
  StronglySorted (precedes (Get.sortDirection data)) l.
Proof.
  rewrite Get_POST_eq. cbv zeta.
  destruct (Mongoose.skip (Get.query data) <? 0); [discriminate|].
  destruct (matching re data) as [p|]; [|discriminate].
  intros H. injection H as <-.
  apply applyLimit_sorted, StronglySorted_skipn, sortByUpdatedAt_sorted.
Qed.

(** C6: the listings a get request returns are sorted on [updatedAt],
    oldest first when [order] is ["asc"], newest first when [order] is
    ["desc"] or absent. *)
Theorem results_sorted_by_updatedAt (re : RegexEngine) (s : Mongoose.Store)
  (data : Get.Data) (l : list Document) :
  Get.POST re s data = {| body := Listings l; status := 200 |} ->
  (Get.order data = Some "asc" -> StronglySorted notNewer l)
  /\ (Get.order data = Some "desc" \/ Get.order data = None ->
      StronglySorted notOlder l).
Proof.
  intros H. apply Get_POST_sorted in H. unfold Get.sortDirection in H.
  split.
  - intros E. rewrite E in H. exact H.
  - intros [E | E]; rewrite E in H; exact H.
Qed.

Lemma results_sorted_ascending_witness :
  Get.POST Regex.engine sampleStore (request None (Some "asc"))
  = {| body := Listings
         [document 1%nat (listing "Tower 101" "Unit B" 202) None;
          document 2%nat (listing "Palm Hills" "abc" 303) (Some 100);
          document 0%nat sunrise (Some 300)];
       status := 200 |}
  /\ StronglySorted notNewer
       [document 1%nat (listing "Tower 101" "Unit B" 202) None;
        document 2%nat (listing "Palm Hills" "abc" 303) (Some 100);
        document 0%nat sunrise (Some 300)].
Proof.
  split; [reflexivity|].
  apply (results_sorted_by_updatedAt Regex.engine sampleStore
           (request None (Some "asc")) _ eq_refl).
  reflexivity.
Defined.

Lemma parseInt_small (z : Z) :
  Z.abs z < 1000000000000000000000 -> JS.parseInt (Some z) = Some z.
Proof.
  intros H. unfold JS.parseInt.
  destruct (Z.ltb_spec (Z.abs z) 1000000000000000000000); [reflexivity | lia].
Qed.

Lemma skip_of_startIndex (o : option Z) :
  (forall n, o = Some n -> 0 <= n < 1000000000000000000000) ->
  (JS.orDefault (JS.parseInt o) 0 <? 0) = false
  /\ Z.to_nat (JS.orDefault (JS.parseInt o) 0)
     = match o with Some n => Z.to_nat n | None => 0%nat end.
Proof.
  intros H. destruct o as [n|]; [|split; reflexivity].
  specialize (H n eq_refl). rewrite parseInt_small by lia.
  unfold JS.orDefault. destruct (Z.eqb_spec n 0) as [-> | _].
  - split; reflexivity.
  - split; [apply Z.ltb_ge; lia | reflexivity].
Qed.

Lemma limit_of_limit (o : option Z) (l : list Document) :
  (forall n, o = Some n -> 0 < n < 1000000000000000000000) ->
  Mongoose.applyLimit (JS.orDefault (JS.parseInt o) 9) l
  = firstn (match o with Some n => Z.to_nat n | None => 9%nat end) l.
Proof.
  intros H. destruct o as [n|]; [|reflexivity].
  specialize (H n eq_refl). rewrite parseInt_small by lia.
  unfold JS.orDefault, Mongoose.applyLimit.
  destruct (Z.eqb_spec n 0) as [-> | _]; [lia|].
  destruct (Z.eqb_spec n 0) as [-> | _]; [lia|].
  rewrite Zabs2Nat.abs_nat_nonneg by lia. reflexivity.
Qed.




(** [parseInt] of 10^21, of 2^70 and of the binary64 value of 1e23, whose
    strings are [1e+21], [1.1805916207174113e+21] and [1e+23], is 1. *)
Example parseInt_exponent_notation :
  JS.parseInt (Some 1000000000000000000000) = Some 1
  /\ JS.parseInt (Some 1180591620717411303424) = Some 1
  /\ JS.parseInt (Some 99999999999999991611392) = Some 1
  /\ JS.parseInt (Some 999999999999999868928) = Some 999999999999999868928.
Proof. repeat split; vm_compute; reflexivity. Qed.

(** With twenty matching documents, [startIndex = 9] and [limit = 9] give
    the 10th to the 18th of them, newest first. *)
Example second_page_ids :
  match body (Get.POST Regex.engine twentyStore secondPage) with
  | Listings l => map _id l = [10; 9; 8; 7; 6; 5; 4; 3; 2]%nat
  | _ => False
  end.
Proof. reflexivity. Qed.

(** C10: an [order] other than the string ["asc"] sorts newest first, and
    the request is answered as the same request with [order] ["desc"]. *)
Theorem order_other_than_asc_is_descending (re : RegexEngine)
  (s : Mongoose.Store) (data : Get.Data) (o : option string) :
  o <> Some "asc" ->
  Get.sortDirection (withOrder data o) = -1
  /\ Get.POST re s (withOrder data o) = Get.POST re s (withOrder data (Some "desc")).
Proof.
  intros Ho.
  assert (E : Get.sortDirection (withOrder data o) = -1).
  { unfold Get.sortDirection, withOrder. simpl.
    destruct o as [x|]; [|reflexivity].
    destruct (String.eqb_spec x "asc") as [-> | _]; [congruence | reflexivity]. }
  split; [exact E|].
  unfold Get.POST, Get.query. rewrite E. reflexivity.
Qed.

Lemma order_uppercase_witness :
  Get.sortDirection (withOrder (request None None) (Some "ASC")) = -1
  /\ Get.POST Regex.engine sampleStore (withOrder (request None None) (Some "ASC"))
     = Get.POST Regex.engine sampleStore (withOrder (request None None) (Some "desc")).
Proof.
  apply (order_other_than_asc_is_descending Regex.engine sampleStore
           (request None None) (Some "ASC")).
  discriminate.
Defined.

Lemma trimStart_blank (t : string) :
  Regex.allChars JS.isWhiteSpace t = true -> JS.trimStart t = "".
Proof.
  induction t as [|c r IH]; simpl; [reflexivity|].
  destruct (JS.isWhiteSpace c); simpl; [exact IH | discriminate].
Qed.

Lemma trim_blank (t : string) :
  Regex.allChars JS.isWhiteSpace t = true -> JS.trim t = "".
Proof. intros H. unfold JS.trim. rewrite (trimStart_blank _ H). reflexivity. Qed.

Lemma searchTermKey_blank (data : Get.Data) :
  blank (Get.searchTerm data) -> Get.searchTermKey data = [].
Proof.
  unfold blank, Get.searchTermKey. destruct (Get.searchTerm data) as [t|]; [|reflexivity].
  intros H. rewrite (trim_blank _ H). reflexivity.
Qed.

(** The [userId] and [listingId] keys always compile. *)
Lemma otherFilters_compile (re : RegexEngine) (data : Get.Data) :
  exists p, otherFilters re data = Some p.
Proof.
  unfold otherFilters, Get.userIdKey, Get.listingIdKey.
  destruct (Get.userId data) as [u|], (Get.listingId data) as [i|];
    try destruct (JS.truthy u); simpl; eexists; reflexivity.
Qed.

(** C8: a search term that is absent, empty or made of white space adds no
    key to the filter: the request selects with the [userId] and [listingId]
    keys alone, and is answered as the request without search term. *)
Theorem blank_searchTerm_adds_no_filter (re : RegexEngine) (s : Mongoose.Store)
  (data : Get.Data) :
  blank (Get.searchTerm data) ->
  Mongoose.filter (Get.query data)
  = (Get.userIdKey data ++ Get.listingIdKey data)%list
  /\ Get.POST re s data = Get.POST re s (withSearchTerm data None)
  /\ exists p, matching re data = Some p /\ otherFilters re data = Some p.
Proof.
  intros H. pose proof (searchTermKey_blank _ H) as E.
  assert (F : Mongoose.filter (Get.query data)
              = (Get.userIdKey data ++ Get.listingIdKey data)%list).
  { unfold Get.query. simpl. rewrite E, app_nil_r. reflexivity. }
  split; [exact F|]. split.
  - unfold Get.POST, Listing.find, Mongoose.find, Get.query. simpl.
    rewrite E. reflexivity.
  - destruct (otherFilters_compile re data) as [p Hp]. exists p.
    split; [|exact Hp]. unfold matching. rewrite F. exact Hp.
Qed.

Lemma blank_searchTerm_witness :
  Mongoose.filter (Get.query (request (Some "  ") None)) = []
  /\ Get.POST Regex.engine sampleStore (request (Some "  ") None)
     = Get.POST Regex.engine sampleStore (request None None)
  /\ exists p, matching Regex.engine (request (Some "  ") None) = Some p
               /\ otherFilters Regex.engine (request (Some "  ") None) = Some p.
Proof.
  apply (blank_searchTerm_adds_no_filter Regex.engine sampleStore
           (request (Some "  ") None)).
  reflexivity.
Defined.

(** ** Filters *)

Lemma castFilter_app (f g : list Condition) :
  Mongoose.castFilter listingSchema (f ++ g)
  = (Mongoose.castFilter listingSchema f ++ Mongoose.castFilter listingSchema g)%list.
Proof. unfold Mongoose.castFilter. simpl. apply filter_app. Qed.

Lemma compileFilter_app (re : RegexEngine) (f g : list Condition)
  (p q : Document -> bool) :
  Mongoose.compileFilter re f = Some p ->
  Mongoose.compileFilter re g = Some q ->
  exists r, Mongoose.compileFilter re (f ++ g) = Some r
            /\ forall d, r d = p d && q d.
Proof.
  revert p. induction f as [|c f IH]; intros p Hp Hq; simpl in *.
  - injection Hp as <-. exists q. split; [exact Hq | reflexivity].
  - destruct (Mongoose.compileCondition re c) as [pc|]; [|discriminate].
    destruct (Mongoose.compileFilter re f) as [pf|]; [|discriminate].
    injection Hp as <-. destruct (IH pf eq_refl Hq) as [r [-> Hr]].
    eexists. split; [reflexivity|]. intros d. simpl.
    rewrite Hr, andb_assoc. reflexivity.
Qed.

(** The predicate of a request whose search term contributes the single
    key [k]. *)
Lemma matching_with_key (re : RegexEngine) (data : Get.Data) (k : Condition)
  (pk : Document -> bool) :
  Get.searchTermKey data = [k] ->
  Mongoose.inSchema listingSchema k = true ->
  Mongoose.compileCondition re k = Some pk ->
  exists p0 p, otherFilters re data = Some p0 /\ matching re data = Some p
               /\ forall d, p d = true <-> p0 d = true /\ pk d = true.
Proof.
  intros Hk Hin Hc. destruct (otherFilters_compile re data) as [p0 Hp0].
  assert (Hq : Mongoose.compileFilter re (Mongoose.castFilter listingSchema [k])
               = Some (fun d => pk d && true)).
  { unfold Mongoose.castFilter. simpl. rewrite Hin. simpl. rewrite Hc. reflexivity. }
  destruct (compileFilter_app re _ _ _ _ Hp0 Hq) as [r [Hr Hrd]].
  exists p0, r. split; [exact Hp0|]. split.
  - unfold matching, Get.query. simpl. rewrite Hk, app_assoc, castFilter_app. exact Hr.
  - intros d. rewrite Hrd, andb_true_r, andb_true_iff. reflexivity.
Qed.

Lemma In_skipn (n : nat) (l : list Document) (d : Document) :
  In d (skipn n l) -> In d l.
Proof.
  intros H. rewrite <- (firstn_skipn n l). apply in_or_app. right. exact H.
Qed.

Lemma In_applyLimit (n : Z) (l : list Document) (d : Document) :
  In d (Mongoose.applyLimit n l) -> In d l.
Proof.
  unfold Mongoose.applyLimit. destruct (n =? 0); [auto|].
  intros H. rewrite <- (firstn_skipn (Z.abs_nat n) l). apply in_or_app. left. exact H.
Qed.

(** The listings of an answer are documents of the store that the
    request's predicate selects. *)
Lemma Get_POST_In (re : RegexEngine) (s : Mongoose.Store) (data : Get.Data)
  (l : list Document) (p : Document -> bool) :
  Get.POST re s data = {| body := Listings l; status := 200 |} ->
  matching re data = Some p ->
  forall d, In d l -> In d (Mongoose.documents s) /\ p d = true.
Proof.
  rewrite Get_POST_eq. cbv zeta. intros H Hp. rewrite Hp in H.
  destruct (Mongoose.skip (Get.query data) <? 0); [discriminate|].
  injection H as <-. intros d Hd. apply filter_In.
  apply In_applyLimit, In_skipn in Hd.
  exact (Permutation_in _ (Permutation_sym (sortByUpdatedAt_perm _ _)) Hd).
Qed.

Lemma numberEqZ_spec (n : JS.number) (z : Z) :
  numberEqZ n z = true <-> equalsNumber n z.
Proof.
  unfold numberEqZ, equalsNumber. destruct n as [| b | q].
  - split; [discriminate | intros [q [H _]]; discriminate].
  - split; [discriminate | intros [q [H _]]; discriminate].
  - rewrite Qeq_bool_iff. split.
    + intros H. exists q. split; [reflexivity | exact H].
    + intros [q' [[= <-] H]]. exact H.
Qed.

Lemma equalsNumber_integer (k z : Z) :
  equalsNumber (JS.Finite (inject_Z k)) z <-> z = k.
Proof.
  unfold equalsNumber. split.
  - intros [q [[= <-] H]]. symmetry. apply inject_Z_injective. exact H.
  - intros ->. eexists. split; [reflexivity | apply Qeq_refl].
Qed.

(** C3: when the trimmed search term is not empty and parses as the number
    [n], the search key selects exactly the documents whose [unitNumber]
    is [n], and every listing of the answer has that [unitNumber]. *)
Theorem numeric_searchTerm_selects_unitNumber (re : RegexEngine)
  (s : Mongoose.Store) (data : Get.Data) (t : string) (n : JS.number) :
  Get.searchTerm data = Some t ->
  JS.trim t <> "" ->
  JS.Number (Some (JS.trim t)) = n ->
  JS.isNaN n = false ->
  Get.searchTermKey data = [Or [Eq_unitNumber n]]
  /\ (exists p0 p, otherFilters re data = Some p0 /\ matching re data = Some p
        /\ forall d, p d = true <->
                     p0 d = true /\ equalsNumber n (unitNumber (fields d)))
  /\ (forall l d, Get.POST re s data = {| body := Listings l; status := 200 |} ->
        In d l -> equalsNumber n (unitNumber (fields d))).
Proof.
  intros Ht Hne Hn Hnum.
  assert (Hk : Get.searchTermKey data = [Or [Eq_unitNumber n]]).
  { unfold Get.searchTermKey, Get.isNumericSearch. rewrite Ht.
    change (option_map JS.trim (Some t)) with (Some (JS.trim t)).
    rewrite Hn, Hnum. destruct (JS.trim t); [congruence | reflexivity]. }
  destruct (matching_with_key re data _
              (fun d => numberEqZ n (unitNumber (fields d)) || false)
              Hk eq_refl eq_refl) as [p0 [p [Hp0 [Hp Hpd]]]].
  assert (Hpd' : forall d, p d = true <->
                   p0 d = true /\ equalsNumber n (unitNumber (fields d))).
  { intros d. rewrite Hpd, orb_false_r, numberEqZ_spec. reflexivity. }
  split; [exact Hk|]. split.
  - exists p0, p. auto.
  - intros l d Hl Hd. destruct (Get_POST_In re s data l p Hl Hp d Hd) as [_ H].
    apply Hpd' in H. apply H.
Qed.

Lemma numeric_searchTerm_witness :
  Get.searchTermKey (request (Some " 101 ") None)
  = [Or [Eq_unitNumber (JS.Finite (inject_Z 101))]]
  /\ (exists p0 p, otherFilters Regex.engine (request (Some " 101 ") None) = Some p0
        /\ matching Regex.engine (request (Some " 101 ") None) = Some p
        /\ forall d, p d = true <->
                     p0 d = true
                     /\ equalsNumber (JS.Finite (inject_Z 101)) (unitNumber (fields d)))
  /\ (forall l d,
        Get.POST Regex.engine sampleStore (request (Some " 101 ") None)
        = {| body := Listings l; status := 200 |} ->
        In d l -> equalsNumber (JS.Finite (inject_Z 101)) (unitNumber (fields d))).
Proof.
  apply (numeric_searchTerm_selects_unitNumber Regex.engine sampleStore
           (request (Some " 101 ") None) " 101 " (JS.Finite (inject_Z 101))).
  - reflexivity.
  - discriminate.
  - reflexivity.
  - reflexivity.
Defined.

(** The term ["101"] returns the listing numbered 101 and not the listing
    of project ["Tower 101"]. *)
Example search_101 :
  Get.POST Regex.engine sampleStore (request (Some "101") None)
  = {| body := Listings [document 0%nat sunrise (Some 300)]; status := 200 |}.
Proof. reflexivity. Qed.

(** ** Text search *)

Lemma lower_idem (c : ascii) : JS.lower (JS.lower c) = JS.lower c.
Proof. destruct c as [[] [] [] [] [] [] [] []]; reflexivity. Qed.

Lemma isMeta_lower (c : ascii) : Regex.isMeta (JS.lower c) = Regex.isMeta c.
Proof. destruct c as [[] [] [] [] [] [] [] []]; reflexivity. Qed.

Lemma not_meta_not_dot (c : ascii) :
  Regex.isMeta c = false -> Ascii.eqb c "." = false.
Proof. destruct c as [[] [] [] [] [] [] [] []]; intros H; try reflexivity; discriminate H. Qed.

Lemma toLowerCase_idem (s : string) :
  JS.toLowerCase (JS.toLowerCase s) = JS.toLowerCase s.
Proof. induction s as [|c r IH]; simpl; [|rewrite lower_idem, IH]; reflexivity. Qed.

Lemma toLowerCase_app (s u : string) :
  JS.toLowerCase (s ++ u) = JS.toLowerCase s ++ JS.toLowerCase u.
Proof. induction s as [|c r IH]; simpl; [|rewrite IH]; reflexivity. Qed.

Lemma literal_toLowerCase (p : string) :
  Regex.literal (JS.toLowerCase p) = Regex.literal p.
Proof.
  unfold Regex.literal. induction p as [|c r IH]; simpl; [reflexivity|].
  rewrite isMeta_lower, IH. reflexivity.
Qed.

Lemma containsIgnoringCase_toLowerCase (t s : string) :
  containsIgnoringCase (JS.toLowerCase t) s <-> containsIgnoringCase t s.
Proof. unfold containsIgnoringCase. rewrite toLowerCase_idem. reflexivity. Qed.

Lemma parse_literal (p : string) :
  Regex.literal p = true ->
  Regex.parse p = Some (map Regex.Chr (list_ascii_of_string p)).
Proof.
  unfold Regex.literal. induction p as [|c r IH]; simpl; [reflexivity|].
  intros H. apply andb_true_iff in H as [Hc Hr]. apply negb_true_iff in Hc.
  rewrite (not_meta_not_dot _ Hc), Hc, (IH Hr). reflexivity.
Qed.

(** Matching the characters of [p] at the start of [s], ignoring case. *)
Lemma matchHere_chars (p s : string) :
  Regex.matchHere true (map Regex.Chr (list_ascii_of_string p)) s = true
  <-> exists post, JS.toLowerCase s = JS.toLowerCase p ++ post.
Proof.
  revert s. induction p as [|c r IH]; intros s; simpl.
  - split; [intros _; eexists; reflexivity | reflexivity].
  - destruct s as [|x s']; simpl.
    + split; [discriminate | intros [post H]; discriminate].
    + rewrite andb_true_iff, IH. split.
      * intros [Hc [post Hp]]. apply Ascii.eqb_eq in Hc.
        exists post. rewrite Hc, Hp. reflexivity.
      * intros [post [= Hc Hp]]. split; [apply Ascii.eqb_eq; congruence|].
        exists post. exact Hp.
Qed.

Lemma search_chars (p s : string) :
  Regex.search true (map Regex.Chr (list_ascii_of_string p)) s = true
  <-> containsIgnoringCase p s.
Proof.
  unfold containsIgnoringCase. induction s as [|x s' IH].
  - simpl Regex.search. rewrite orb_false_r, matchHere_chars. split.
    + intros [post H]. exists "", post. exact H.
    + intros [pre [post H]]. destruct pre; [|discriminate]. exists post. exact H.
  - simpl Regex.search. rewrite orb_true_iff, matchHere_chars, IH. split.
    + intros [[post H] | [pre [post H]]].
      * exists "", post. exact H.
      * exists (String (JS.lower x) pre), post. simpl. rewrite H. reflexivity.
    + intros [pre [post H]]. destruct pre as [|y pre].
      * left. exists post. exact H.
      * right. injection H as _ H. exists pre, post. exact H.
Qed.

(** The reference engine reads metacharacter-free patterns literally. *)
Lemma engine_literal : literalEngine Regex.engine.
Proof.
  intros p Hp. unfold Regex.engine. rewrite (parse_literal _ Hp). simpl.
  eexists. split; [reflexivity|]. intros s. apply search_chars.
Qed.

Lemma compileAlternatives_names (re : RegexEngine) (pattern : string)
  (m : string -> bool) :
  re pattern "i" = Some m ->
  Mongoose.compileCondition re
    (Or [Regex_projectName pattern "i"; Regex_unitName pattern "i"])
  = Some (fun d => m (projectName (fields d))
                   || (m (unitName (fields d)) || false)).
Proof. intros H. simpl. rewrite H. reflexivity. Qed.

Lemma compileFilter_app_rejected (re : RegexEngine) (f g : list Condition) :
  Mongoose.compileFilter re g = None ->
  Mongoose.compileFilter re (f ++ g) = None.
Proof.
  intros H. induction f as [|c f IH]; simpl; [exact H|].
  rewrite IH. destruct (Mongoose.compileCondition re c); reflexivity.
Qed.

(** A text search term puts both names under [$or], as patterns. *)
Lemma searchTermKey_text (data : Get.Data) (t : string) :
  Get.searchTerm data = Some t ->
  JS.trim t <> "" ->
  JS.isNaN (JS.Number (Some (JS.trim t))) = true ->
  Get.searchTermKey data
  = [Or [Regex_projectName (JS.toLowerCase (JS.trim t)) "i";
         Regex_unitName (JS.toLowerCase (JS.trim t)) "i"]].
Proof.
  intros Ht Hne Hnan. unfold Get.searchTermKey, Get.isNumericSearch. rewrite Ht.
  change (option_map JS.trim (Some t)) with (Some (JS.trim t)).
  rewrite Hnan. destruct (JS.trim t); [congruence | reflexivity].
Qed.

(** When the engine compiles the pattern to [m], the search key selects
    the documents one of whose names [m] accepts. *)
Lemma text_search_compiled (re : RegexEngine) (data : Get.Data) (t : string)
  (m : string -> bool) :
  Get.searchTerm data = Some t ->
  JS.trim t <> "" ->
  JS.isNaN (JS.Number (Some (JS.trim t))) = true ->
  re (JS.toLowerCase (JS.trim t)) "i" = Some m ->
  exists p0 p, otherFilters re data = Some p0 /\ matching re data = Some p
    /\ forall d, p d = true <->
                 p0 d = true
                 /\ (m (projectName (fields d)) = true
                     \/ m (unitName (fields d)) = true).
Proof.
  intros Ht Hne Hnan Hm.
  destruct (matching_with_key re data _ _ (searchTermKey_text data t Ht Hne Hnan)
              eq_refl (compileAlternatives_names re _ m Hm))
    as [p0 [p [Hp0 [Hp Hpd]]]].
  exists p0, p. split; [exact Hp0|]. split; [exact Hp|].
  intros d. rewrite Hpd, orb_false_r, orb_true_iff. reflexivity.
Qed.

(** When the engine rejects the pattern, the request fails. *)
Lemma text_search_rejected (re : RegexEngine) (s : Mongoose.Store)
  (data : Get.Data) (t : string) :
  Get.searchTerm data = Some t ->
  JS.trim t <> "" ->
  JS.isNaN (JS.Number (Some (JS.trim t))) = true ->
  re (JS.toLowerCase (JS.trim t)) "i" = None ->
  Get.POST re s data = {| body := Failure "Internal Server Error"; status := 500 |}.
Proof.
  intros Ht Hne Hnan Hm. rewrite Get_POST_eq. cbv zeta.
  destruct (Mongoose.skip (Get.query data) <? 0); [reflexivity|].
  assert (E : matching re data = None); [|rewrite E; reflexivity].
  unfold matching, Get.query. simpl.
  rewrite (searchTermKey_text data t Ht Hne Hnan), app_assoc, castFilter_app.
  apply compileFilter_app_rejected. unfold Mongoose.castFilter. simpl.
  rewrite Hm. reflexivity.
Qed.

(** C4, as the handler has it: when the trimmed search term is not empty
    and does not parse as a number, it is matched, lower-cased and ignoring
    case, as a regular expression against [projectName] and [unitName]: the
    search key selects the documents one of whose names the compiled pattern
    accepts, and the request fails when the pattern is rejected.  When the
    term has no metacharacter (and the engine reads such patterns
    literally), these are exactly the documents whose [projectName] or
    [unitName] contains the term ignoring case. *)
Theorem text_searchTerm_selects_names (re : RegexEngine) (s : Mongoose.Store)
  (data : Get.Data) (t : string) :
  Get.searchTerm data = Some t ->
  JS.trim t <> "" ->
  JS.isNaN (JS.Number (Some (JS.trim t))) = true ->
  Get.searchTermKey data
  = [Or [Regex_projectName (JS.toLowerCase (JS.trim t)) "i";
         Regex_unitName (JS.toLowerCase (JS.trim t)) "i"]]
  /\ (forall m, re (JS.toLowerCase (JS.trim t)) "i" = Some m ->
        exists p0 p, otherFilters re data = Some p0 /\ matching re data = Some p
          /\ forall d, p d = true <->
                       p0 d = true
                       /\ (m (projectName (fields d)) = true
                           \/ m (unitName (fields d)) = true))
  /\ (re (JS.toLowerCase (JS.trim t)) "i" = None ->
      Get.POST re s data
      = {| body := Failure "Internal Server Error"; status := 500 |})
  /\ (literalEngine re -> Regex.literal (JS.trim t) = true ->
      (exists p0 p, otherFilters re data = Some p0 /\ matching re data = Some p
         /\ forall d, p d = true <->
               p0 d = true
               /\ (containsIgnoringCase (JS.trim t) (projectName (fields d))
                   \/ containsIgnoringCase (JS.trim t) (unitName (fields d))))
      /\ (forall l d,
            Get.POST re s data = {| body := Listings l; status := 200 |} ->
            In d l ->
            containsIgnoringCase (JS.trim t) (projectName (fields d))
            \/ containsIgnoringCase (JS.trim t) (unitName (fields d)))).
Proof.
  intros Ht Hne Hnan.
  split; [exact (searchTermKey_text data t Ht Hne Hnan)|].
  split; [intros m; exact (text_search_compiled re data t m Ht Hne Hnan)|].
  split; [exact (text_search_rejected re s data t Ht Hne Hnan)|].
  intros Hre Hlit.
  destruct (Hre (JS.toLowerCase (JS.trim t))) as [m [Hm Hms]].
  { rewrite literal_toLowerCase. exact Hlit. }
  destruct (text_search_compiled re data t m Ht Hne Hnan Hm)
    as [p0 [p [Hp0 [Hp Hpd]]]].
  assert (Hpd' : forall d, p d = true <->
                   p0 d = true
                   /\ (containsIgnoringCase (JS.trim t) (projectName (fields d))
                       \/ containsIgnoringCase (JS.trim t) (unitName (fields d)))).
  { intros d. rewrite Hpd, !Hms, !containsIgnoringCase_toLowerCase. reflexivity. }
  split.
  - exists p0, p. auto.
  - intros l d Hl Hd. destruct (Get_POST_In re s data l p Hl Hp d Hd) as [_ H].
    apply Hpd' in H. apply H.
Qed.

Lemma text_searchTerm_witness :
  (exists p0 p,
     otherFilters Regex.engine (request (Some " SUNRISE ") None) = Some p0
     /\ matching Regex.engine (request (Some " SUNRISE ") None) = Some p
     /\ forall d, p d = true <->
                  p0 d = true
                  /\ (containsIgnoringCase "SUNRISE" (projectName (fields d))
                      \/ containsIgnoringCase "SUNRISE" (unitName (fields d))))
  /\ (forall l d,
        Get.POST Regex.engine sampleStore (request (Some " SUNRISE ") None)
        = {| body := Listings l; status := 200 |} ->
        In d l ->
        containsIgnoringCase "SUNRISE" (projectName (fields d))
        \/ containsIgnoringCase "SUNRISE" (unitName (fields d))).
Proof.
  apply (text_searchTerm_selects_names Regex.engine sampleStore
           (request (Some " SUNRISE ") None) " SUNRISE ").
  - reflexivity.
  - discriminate.
  - reflexivity.
  - exact engine_literal.
  - reflexivity.
Defined.

(** The term ["sunrise"] returns the listing of project
    ["Sunrise Apartments"]. *)
Example search_sunrise :
  Get.POST Regex.engine sampleStore (request (Some "sunrise") None)
  = {| body := Listings [document 0%nat sunrise (Some 300)]; status := 200 |}.
Proof. reflexivity. Qed.

(** C4 as stated fails: the term ["a.c"] is not empty and not a number, and
    the request returns the listing whose [unitName] is ["abc"], although
    neither of its names contains ["a.c"]. *)
Lemma pattern_term_counterexample :
  Get.searchTerm (request (Some "a.c") None) = Some "a.c"
  /\ JS.trim "a.c" <> ""
  /\ JS.isNaN (JS.Number (Some (JS.trim "a.c"))) = true
  /\ Get.POST Regex.engine sampleStore (request (Some "a.c") None)
     = {| body := Listings [document 2%nat (listing "Palm Hills" "abc" 303) (Some 100)];
          status := 200 |}
  /\ (exists p, matching Regex.engine (request (Some "a.c") None) = Some p
                /\ p (document 2%nat (listing "Palm Hills" "abc" 303) (Some 100)) = true)
  /\ ~ (containsIgnoringCase (JS.trim "a.c") "Palm Hills"
        \/ containsIgnoringCase (JS.trim "a.c") "abc").
Proof.
  split; [reflexivity|]. split; [discriminate|]. split; [reflexivity|].
  split; [reflexivity|]. split.
  - eexists. split; reflexivity.
  - intros [H | H]; apply search_chars in H; vm_compute in H; discriminate H.
Qed.

(** ** The create, update and delete handlers *)

Lemma find_exists (p : Document -> bool) (l : list Document) :
  (exists d, In d l /\ p d = true) -> exists d, List.find p l = Some d.
Proof.
  intros [d [Hd Hp]]. destruct (List.find p l) as [x|] eqn:E; [eauto|].
  rewrite (find_none _ _ E d Hd) in Hp. discriminate.
Qed.

Lemma find_absent (p : Document -> bool) (l : list Document) :
  (forall d, In d l -> p d = false) -> List.find p l = None.
Proof.
  intros H. destruct (List.find p l) as [x|] eqn:E; [|reflexivity].
  apply find_some in E as [Hx Hp]. rewrite (H x Hx) in Hp. discriminate.
Qed.

(** After the two probes of the create handler have found nothing the
    insert meets no duplicate key: the handler is the probes, the
    validation and the insert. *)
Lemma Create_POST_unfold (now : Z) (s : Mongoose.Store) (data : FormData) :
  Create.POST now s data
  = match Listing.findOne
            (fun d => String.eqb (unitName (fields d)) (unitName data)) s with
    | Some _ => (s, DuplicateUnitName)
    | None =>
        match Listing.findOne
                (fun d => Z.eqb (unitNumber (fields d)) (unitNumber data)) s with
        | Some _ => (s, DuplicateUnitNumber)
        | None =>
            match (if validate data
                   then Some ({| Mongoose.documents :=
                                   (Mongoose.documents s
                                      ++ [{| _id := Mongoose.nextId s;
                                             fields := data;
                                             updatedAt := None |}])%list;
                                 Mongoose.nextId := S (Mongoose.nextId s) |},
                              {| _id := Mongoose.nextId s;
                                 fields := data;
                                 updatedAt := None |})
                   else None) with
            | Some (s', newListing) =>
                (s', {| body := IdSuccess (_id newListing); status := 200 |})
            | None =>
                (s, {| body := Failure "Internal Server Error. Please try again later.";
                       status := 500 |})
            end
        end
    end.
Proof.
  unfold Create.POST, Listing.create, Mongoose.create, Listing.findOne,
    Mongoose.findOne.
  destruct (find _ (Mongoose.documents s)) eqn:E1; [reflexivity|].
  destruct (find (fun d => Z.eqb (unitNumber (fields d)) (unitNumber data))
              (Mongoose.documents s)) eqn:E2; [reflexivity|].
  destruct (validate data); [|reflexivity].
  assert (D : Mongoose.duplicateKeyOnInsert data (Mongoose.documents s) = false).
  { destruct (Mongoose.duplicateKeyOnInsert data (Mongoose.documents s)) eqn:D;
      [|reflexivity].
    apply existsb_exists in D as [x [Hx D]].
    apply orb_true_iff in D as [D | D].
    - rewrite (find_none _ _ E1 x Hx) in D. discriminate D.
    - rewrite (find_none _ _ E2 x Hx) in D. discriminate D. }
  rewrite D. reflexivity.
Qed.

(** C5: create answers [DuplicateUnitName] when a document has the
    candidate's [unitName]; when none has, it answers [DuplicateUnitNumber]
    when a document has the candidate's [unitNumber]; in both cases the
    store is returned as it was. *)
Theorem create_rejects_duplicates (now : Z) (s : Mongoose.Store) (data : FormData) :
  ((exists d, In d (Mongoose.documents s)
              /\ unitName (fields d) = unitName data) ->
   Create.POST now s data = (s, DuplicateUnitName))
  /\ ((forall d, In d (Mongoose.documents s) ->
                 unitName (fields d) <> unitName data) ->
      (exists d, In d (Mongoose.documents s)
                 /\ unitNumber (fields d) = unitNumber data) ->
      Create.POST now s data = (s, DuplicateUnitNumber)).
Proof.
  unfold Create.POST, Listing.findOne, Mongoose.findOne. split.
  - intros [d [Hd E]].
    destruct (find_exists (fun d => String.eqb (unitName (fields d)) (unitName data))
                (Mongoose.documents s)) as [x ->]; [|reflexivity].
    exists d. split; [exact Hd | apply String.eqb_eq, E].
  - intros Hname [d [Hd E]].
    rewrite find_absent.
    + destruct (find_exists (fun d => Z.eqb (unitNumber (fields d)) (unitNumber data))
                  (Mongoose.documents s)) as [x ->]; [|reflexivity].
      exists d. split; [exact Hd | apply Z.eqb_eq, E].
    + intros x Hx. apply String.eqb_neq, Hname, Hx.
Qed.

Lemma create_rejects_duplicates_witness :
  Create.POST 1000 sampleStore (listing "Green Park" "Unit A" 404)
  = (sampleStore, DuplicateUnitName)
  /\ Create.POST 1000 sampleStore (listing "Green Park" "Unit C" 101)
     = (sampleStore, DuplicateUnitNumber).
Proof.
  split.
  - apply (proj1 (create_rejects_duplicates 1000 sampleStore
                    (listing "Green Park" "Unit A" 404))).
    exists (document 0%nat sunrise (Some 300)). split; [left|]; reflexivity.
  - apply (proj2 (create_rejects_duplicates 1000 sampleStore
                    (listing "Green Park" "Unit C" 101))).
    + intros d [<- | [<- | [<- | []]]]; discriminate.
    + exists (document 0%nat sunrise (Some 300)). split; [left|]; reflexivity.
Defined.

(** The [unitName] probe comes first: a candidate that repeats both fields
    is answered [DuplicateUnitName]. *)
Example create_both_duplicates :
  Create.POST 1000 sampleStore sunrise = (sampleStore, DuplicateUnitName).
Proof. reflexivity. Qed.

(** C9: an update whose [listingId] matches no document answers
    [NotFound] and returns the store as it was. *)
Theorem update_unknown_id_not_found (now : Z) (s : Mongoose.Store)
  (data : Update.Data) :
  (forall d, In d (Mongoose.documents s) -> _id d <> Update.listingId data) ->
  Update.POST now s data = (s, NotFound).
Proof.
  intros H. unfold Update.POST, Listing.findByIdAndUpdate, Mongoose.findByIdAndUpdate.
  rewrite find_absent; [reflexivity|].
  intros d Hd. apply Nat.eqb_neq, H, Hd.
Qed.

Lemma update_unknown_id_witness :
  Update.POST 2000 sampleStore
    {| Update.listingId := 7%nat; Update.formData := greenPark |}
  = (sampleStore, NotFound).
Proof.
  apply (update_unknown_id_not_found 2000 sampleStore
           {| Update.listingId := 7%nat; Update.formData := greenPark |}).
  intros d [<- | [<- | [<- | []]]]; discriminate.
Defined.

(** A successful create appends one document: the candidate's fields under
    the fresh identifier, and no [updatedAt]. *)
Lemma create_success (now : Z) (s s' : Mongoose.Store) (data : FormData)
  (id : ObjectId) :
  Create.POST now s data = (s', {| body := IdSuccess id; status := 200 |}) ->
  id = Mongoose.nextId s
  /\ s' = {| Mongoose.documents :=
               (Mongoose.documents s ++ [document id data None])%list;
             Mongoose.nextId := S id |}.
Proof.
  rewrite Create_POST_unfold.
  destruct (Listing.findOne _ s); [discriminate|].
  destruct (Listing.findOne _ s); [discriminate|].
  destruct (validate data); [|discriminate].
  simpl. intros [= <- <-]. split; reflexivity.
Qed.

Lemma updateFirst_keeps_updatedAt (l : list Document) (id : ObjectId)
  (d d' : Document) :
  List.find (fun x => Nat.eqb (_id x) id) l = Some d ->
  updatedAt d' = updatedAt d ->
  map updatedAt (Mongoose.updateFirst id d' l) = map updatedAt l.
Proof.
  intros H E. induction l as [|x r IH]; simpl in *; [discriminate|].
  destruct (Nat.eqb (_id x) id).
  - injection H as ->. simpl. rewrite E. reflexivity.
  - simpl. rewrite (IH H). reflexivity.
Qed.

(** No update changes the [updatedAt] of any document. *)
Lemma update_keeps_updatedAt (now : Z) (s : Mongoose.Store) (data : Update.Data) :
  map updatedAt (Mongoose.documents (fst (Update.POST now s data)))
  = map updatedAt (Mongoose.documents s).
Proof.
  unfold Update.POST, Listing.findByIdAndUpdate, Mongoose.findByIdAndUpdate.
  destruct (find _ (Mongoose.documents s)) as [d0|] eqn:E; [|reflexivity].
  destruct (Mongoose.duplicateKey _ d0 _ _); [reflexivity|].
  simpl. apply (updateFirst_keeps_updatedAt _ _ d0); [exact E | reflexivity].
Qed.

(** With [{ timestamps: true }] the same create would stamp the document. *)
Lemma timestamped_create (now : Z) (s s' : Mongoose.Store) (f : FormData)
  (d : Document) :
  Mongoose.create timestampedSchema now s f = Some (s', d) ->
  updatedAt d = Some now.
Proof.
  unfold Mongoose.create. destruct (validate f); [|discriminate].
  destruct (Mongoose.duplicateKeyOnInsert f (Mongoose.documents s)); [discriminate|].
  intros [= _ <-]. reflexivity.
Qed.

(** C1, evaluated: a create at time 1000 into the empty store succeeds and
    persists a document without [updatedAt]; an update of that document at
    time 2000 succeeds and leaves it without [updatedAt]. *)
Theorem handlers_never_write_updatedAt :
  Create.POST 1000 emptyStore sunrise
  = ({| Mongoose.documents := [document 0%nat sunrise None];
        Mongoose.nextId := 1%nat |},
     {| body := IdSuccess 0%nat; status := 200 |})
  /\ Update.POST 2000
       {| Mongoose.documents := [document 0%nat sunrise None];
          Mongoose.nextId := 1%nat |}
       {| Update.listingId := 0%nat; Update.formData := greenPark |}
     = ({| Mongoose.documents := [document 0%nat greenPark None];
           Mongoose.nextId := 1%nat |},
        {| body := IdSuccess 0%nat; status := 200 |}).
Proof. split; reflexivity. Qed.

Lemma filter_id_fresh (l : list Document) (id : ObjectId) :
  (forall d, In d l -> (_id d < id)%nat) ->
  List.filter (fun d => Nat.eqb (_id d) id && true) l = [].
Proof.
  induction l as [|d r IH]; intros H; simpl; [reflexivity|].
  destruct (Nat.eqb_spec (_id d) id) as [E | _].
  - specialize (H d (or_introl eq_refl)). lia.
  - simpl. apply IH. intros x Hx. apply H. right. exact Hx.
Qed.

(** Reading back by the identifier create returned gives one listing: the
    candidate's fields under that identifier, without [updatedAt]. *)
Lemma create_then_get (re : RegexEngine) (now : Z) (s s' : Mongoose.Store)
  (data : FormData) (id : ObjectId) :
  wellFormed s ->
  Create.POST now s data = (s', {| body := IdSuccess id; status := 200 |}) ->
  Get.POST re s' (byId id)
  = {| body := Listings [document id data None]; status := 200 |}.
Proof.
  intros [_ Hlt] H. apply create_success in H as [-> ->].
  unfold Get.POST, Listing.find, Mongoose.find. simpl.
  rewrite filter_app, (filter_id_fresh _ _ Hlt). simpl.
  rewrite Nat.eqb_refl. reflexivity.
Qed.

Lemma create_wellFormed (now : Z) (s : Mongoose.Store) (data : FormData) :
  wellFormed s -> wellFormed (fst (Create.POST now s data)).
Proof.
  intros [Hnd Hlt].
  destruct (Create.POST now s data) as [s' r] eqn:E. simpl.
  rewrite Create_POST_unfold in E.
  destruct (Listing.findOne _ s); [injection E as <- _; split; assumption|].
  destruct (Listing.findOne _ s); [injection E as <- _; split; assumption|].
  destruct (validate data); [|injection E as <- _; split; assumption].
  injection E as <- _. split; simpl.
  - rewrite map_app. simpl. apply NoDup_app; [exact Hnd | repeat constructor; simpl; tauto |].
    intros x Hx [<- | []]. apply in_map_iff in Hx as [d [Hd Hin]].
    specialize (Hlt d Hin). lia.
  - intros d Hd. apply in_app_or in Hd as [Hd | [<- | []]]; [|simpl; lia].
    specialize (Hlt d Hd). lia.
Qed.

(** C2, evaluated: a listing created in the sample store is read back by
    its identifier with the fields supplied and that identifier, and without
    [updatedAt]. *)
Theorem created_listing_read_back_without_updatedAt :
  snd (Create.POST 1000 sampleStore greenPark)
  = {| body := IdSuccess 3%nat; status := 200 |}
  /\ Get.POST Regex.engine (fst (Create.POST 1000 sampleStore greenPark)) (byId 3%nat)
     = {| body := Listings [{| _id := 3%nat; fields := greenPark; updatedAt := None |}];
          status := 200 |}.
Proof. split; reflexivity. Qed.


(** ** No handler writes [updatedAt] *)

Lemma create_unstamped (now : Z) (s : Mongoose.Store) (data : FormData) :
  unstamped s -> unstamped (fst (Create.POST now s data)).
Proof.
  intros H. destruct (Create.POST now s data) as [s' r] eqn:E. simpl.
  rewrite Create_POST_unfold in E.
  destruct (Listing.findOne _ s); [injection E as <- _; exact H|].
  destruct (Listing.findOne _ s); [injection E as <- _; exact H|].
  destruct (validate data); injection E as <- _; [|exact H].
  unfold unstamped. simpl. apply Forall_app. split; [exact H|].
  constructor; [reflexivity | constructor].
Qed.

Lemma update_unstamped (now : Z) (s : Mongoose.Store) (data : Update.Data) :
  unstamped s -> unstamped (fst (Update.POST now s data)).
Proof.
  unfold unstamped. rewrite !Forall_forall. intros H d Hd.
  assert (Hm : In (updatedAt d) (map updatedAt (Mongoose.documents s))).
  { rewrite <- (update_keeps_updatedAt now s data). apply in_map, Hd. }
  apply in_map_iff in Hm as [d0 [E Hd0]]. rewrite <- E. apply H, Hd0.
Qed.

Lemma removeFirst_incl (id : ObjectId) (l : list Document) (d : Document) :
  In d (Mongoose.removeFirst id l) -> In d l.
Proof.
  induction l as [|x r IH]; simpl; [auto|].
  destruct (Nat.eqb (_id x) id); [auto|]. intros [-> | H]; auto.
Qed.

Lemma delete_unstamped (s : Mongoose.Store) (id : ObjectId) :
  unstamped s -> unstamped (fst (Delete.DELETE s id)).
Proof.
  unfold unstamped, Delete.DELETE, Listing.findByIdAndDelete,
    Mongoose.findByIdAndDelete.
  destruct (find _ (Mongoose.documents s)) as [d0|]; simpl; [|auto].
  rewrite !Forall_forall. intros H x Hx. apply H.
  apply (removeFirst_incl id). exact Hx.
Qed.

(** Whatever requests are served, starting from a store without
    timestamps, no listing ever carries an [updatedAt]. *)
Lemma serveAll_unstamped (ms : list Mutation) (s : Mongoose.Store) :
  unstamped s -> unstamped (serveAll s ms).
Proof.
  unfold serveAll. revert s. induction ms as [|m ms IH]; intros s H; [exact H|].
  simpl. apply IH. destruct m as [now data | now data | id]; simpl.
  - apply create_unstamped, H.
  - apply update_unstamped, H.
  - apply delete_unstamped, H.
Qed.

(** ** The handlers at the edges of their input *)

(** A [limit] of 0 is falsy and is replaced by 9. *)
Example limit_zero_is_nine :
  match body (Get.POST Regex.engine twentyStore (window None (Some 0))) with
  | Listings l => length l = 9%nat
  | _ => False
  end.
Proof. reflexivity. Qed.

(** A negative [startIndex] is rejected by the database. *)
Example negative_startIndex_fails :
  Get.POST Regex.engine twentyStore (window (Some (-1)) None)
  = {| body := Failure "Internal Server Error"; status := 500 |}.
Proof. reflexivity. Qed.

(** A search term the engine does not compile makes the request fail. *)
Example rejected_pattern_fails :
  Get.POST Regex.engine sampleStore (request (Some "(") None)
  = {| body := Failure "Internal Server Error"; status := 500 |}.
Proof. reflexivity. Qed.

(** The [userId] key is not a path of [listingSchema] and selects nothing
    out. *)
Example userId_is_dropped :
  Get.POST Regex.engine sampleStore
    {| Get.startIndex := None; Get.limit := None; Get.order := None;
       Get.searchTerm := None; Get.userId := Some "650a1b2c3d4e5f6a7b8c9d0";
       Get.listingId := None |}
  = Get.POST Regex.engine sampleStore (request None None).
Proof. reflexivity. Qed.

(** A delete removes the document, and a second delete of the same
    identifier is answered 404. *)
Example delete_twice :
  Delete.DELETE sampleStore 1%nat
  = ({| Mongoose.documents :=
          [document 0%nat sunrise (Some 300);
           document 2%nat (listing "Palm Hills" "abc" 303) (Some 100)];
        Mongoose.nextId := 3%nat |},
     {| body := Success "Property deleted successfully."; status := 200 |})
  /\ snd (Delete.DELETE (fst (Delete.DELETE sampleStore 1%nat)) 1%nat)
     = {| body := Failure "Property not found."; status := 404 |}.
Proof. split; reflexivity. Qed.

(** * Further properties of the handlers *)

(** ** Create *)

Lemma findOne_none_iff (p : Document -> bool) (s : Mongoose.Store) :
  Listing.findOne p s = None <->
  forall d, In d (Mongoose.documents s) -> p d = false.
Proof.
  unfold Listing.findOne, Mongoose.findOne. split.
  - intros H d Hd. exact (find_none _ _ H d Hd).
  - apply find_absent.
Qed.

(** X1: create answers 200 exactly when no document has the candidate's
    [unitName], none has its [unitNumber], and its required strings are not
    empty; the store then gains one document, the candidate under the fresh
    identifier, at the end. *)
Theorem create_succeeds_iff (now : Z) (s : Mongoose.Store) (data : FormData) :
  (ok (snd (Create.POST now s data)) = true <->
   (forall d, In d (Mongoose.documents s) ->
              unitName (fields d) <> unitName data)
   /\ (forall d, In d (Mongoose.documents s) ->
                 unitNumber (fields d) <> unitNumber data)
   /\ validate data = true)
  /\ (ok (snd (Create.POST now s data)) = true ->
      Create.POST now s data
      = ({| Mongoose.documents :=
              (Mongoose.documents s
                 ++ [document (Mongoose.nextId s) data None])%list;
            Mongoose.nextId := S (Mongoose.nextId s) |},
         {| body := IdSuccess (Mongoose.nextId s); status := 200 |})).
Proof.
  rewrite Create_POST_unfold.
  destruct (Listing.findOne
              (fun d => String.eqb (unitName (fields d)) (unitName data)) s)
    as [x|] eqn:E1.
  { split; [|discriminate]. split; [discriminate|].
    intros [H _]. apply find_some in E1 as [Hx Hp].
    apply String.eqb_eq in Hp. destruct (H x Hx Hp). }
  destruct (Listing.findOne
              (fun d => Z.eqb (unitNumber (fields d)) (unitNumber data)) s)
    as [x|] eqn:E2.
  { split; [|discriminate]. split; [discriminate|].
    intros [_ [H _]]. apply find_some in E2 as [Hx Hp].
    apply Z.eqb_eq in Hp. destruct (H x Hx Hp). }
  destruct (validate data) eqn:E3; simpl.
  - split; [|reflexivity]. split; [intros _|reflexivity].
    split; [|split; [|reflexivity]].
    + intros d Hd. apply String.eqb_neq. exact (proj1 (findOne_none_iff _ s) E1 d Hd).
    + intros d Hd. apply Z.eqb_neq. exact (proj1 (findOne_none_iff _ s) E2 d Hd).
  - split; [|discriminate]. split; [discriminate | intros [_ [_ H]]; discriminate].
Qed.

(** ** Failed requests *)

(** X2: a create, an update or a delete that is not answered 200 returns
    the store as it received it: the 400 and the 500 of create, the 404 of
    update and its 500 on a duplicate key, the 404 of delete. *)
Theorem failed_mutation_keeps_store (now : Z) (s : Mongoose.Store) :
  (forall data, ok (snd (Create.POST now s data)) = false ->
                fst (Create.POST now s data) = s)
  /\ (forall data, ok (snd (Update.POST now s data)) = false ->
                   fst (Update.POST now s data) = s)
  /\ (forall id, ok (snd (Delete.DELETE s id)) = false ->
                 fst (Delete.DELETE s id) = s).
Proof.
  split; [|split].
  - intros data. rewrite Create_POST_unfold.
    destruct (Listing.findOne _ s); [reflexivity|].
    destruct (Listing.findOne _ s); [reflexivity|].
    destruct (validate data); [discriminate | reflexivity].
  - intros data. unfold Update.POST, Listing.findByIdAndUpdate,
      Mongoose.findByIdAndUpdate.
    destruct (find _ (Mongoose.documents s)) as [d|]; [|reflexivity].
    destruct (Mongoose.duplicateKey _ d _ _); [reflexivity | discriminate].
  - intros id. unfold Delete.DELETE, Listing.findByIdAndDelete,
      Mongoose.findByIdAndDelete.
    destruct (find _ (Mongoose.documents s)); [discriminate | reflexivity].
Qed.

(** ** Uniqueness of unit names and numbers *)

Lemma removeFirst_map_incl {A : Type} (f : Document -> A) (id : ObjectId)
  (l : list Document) (x : A) :
  In x (map f (Mongoose.removeFirst id l)) -> In x (map f l).
Proof.
  intros H. apply in_map_iff in H as [d [<- Hd]].
  apply in_map, (removeFirst_incl id), Hd.
Qed.

Lemma removeFirst_NoDup {A : Type} (f : Document -> A) (id : ObjectId)
  (l : list Document) :
  NoDup (map f l) -> NoDup (map f (Mongoose.removeFirst id l)).
Proof.
  induction l as [|d r IH]; simpl; [auto|].
  intros H. inversion H as [|? ? Hn Hr]; subst.
  destruct (Nat.eqb (_id d) id); [exact Hr|].
  simpl. constructor; [|exact (IH Hr)].
  intros Hin. apply Hn. exact (removeFirst_map_incl f id r _ Hin).
Qed.

Lemma NoDup_map_snoc {A : Type} (f : Document -> A) (l : list Document)
  (d : Document) :
  NoDup (map f l) -> (forall x, In x l -> f x <> f d) ->
  NoDup (map f (l ++ [d])).
Proof.
  intros Hl Hd. rewrite map_app. simpl. apply NoDup_app.
  - exact Hl.
  - repeat constructor. simpl. tauto.
  - intros y Hy [<- | []]. apply in_map_iff in Hy as [x [E Hx]].
    exact (Hd x Hx E).
Qed.

Lemma create_uniqueUnits (now : Z) (s : Mongoose.Store) (data : FormData) :
  uniqueUnits s -> uniqueUnits (fst (Create.POST now s data)).
Proof.
  intros [Hname Hnum]. rewrite Create_POST_unfold.
  destruct (Listing.findOne
              (fun d => String.eqb (unitName (fields d)) (unitName data)) s)
    eqn:E1; [split; assumption|].
  destruct (Listing.findOne
              (fun d => Z.eqb (unitNumber (fields d)) (unitNumber data)) s)
    eqn:E2; [split; assumption|].
  destruct (validate data); [|split; assumption].
  split; simpl; apply NoDup_map_snoc; try assumption.
  - intros x Hx. apply String.eqb_neq. exact (proj1 (findOne_none_iff _ s) E1 x Hx).
  - intros x Hx. apply Z.eqb_neq. exact (proj1 (findOne_none_iff _ s) E2 x Hx).
Qed.

Lemma delete_uniqueUnits (s : Mongoose.Store) (id : ObjectId) :
  uniqueUnits s -> uniqueUnits (fst (Delete.DELETE s id)).
Proof.
  intros [Hname Hnum].
  unfold Delete.DELETE, Listing.findByIdAndDelete, Mongoose.findByIdAndDelete.
  destruct (find _ (Mongoose.documents s)); simpl; [|split; assumption].
  split; apply removeFirst_NoDup; assumption.
Qed.

(** X3: the two probes of create keep unit names and unit numbers unique:
    starting from a store without duplicates, no sequence of creates and
    deletes produces two documents with the same [unitName] or the same
    [unitNumber]. *)
Theorem creates_and_deletes_keep_units_unique (ms : list Mutation)
  (s : Mongoose.Store) :
  uniqueUnits s ->
  forallb (fun m => negb (isUpdate m)) ms = true ->
  uniqueUnits (serveAll s ms).
Proof.
  unfold serveAll. revert s. induction ms as [|m ms IH]; intros s Hs Hms; [exact Hs|].
  simpl in Hms. apply andb_true_iff in Hms as [Hm Hms]. simpl.
  apply IH; [|exact Hms]. destruct m as [now data | now data | id]; simpl.
  - apply create_uniqueUnits, Hs.
  - discriminate Hm.
  - apply delete_uniqueUnits, Hs.
Qed.

Lemma sampleStore_uniqueUnits : uniqueUnits sampleStore.
Proof.
  split; simpl; repeat constructor; simpl; intuition discriminate.
Qed.

Lemma creates_and_deletes_witness :
  uniqueUnits
    (serveAll sampleStore
       [CreateAt 1000 greenPark; DeleteOf 1%nat; CreateAt 2000 sunrise;
        CreateAt 3000 (listing "Tower 101" "Unit B" 202)]).
Proof.
  apply (creates_and_deletes_keep_units_unique
           [CreateAt 1000 greenPark; DeleteOf 1%nat; CreateAt 2000 sunrise;
            CreateAt 3000 (listing "Tower 101" "Unit B" 202)] sampleStore).
  - exact sampleStore_uniqueUnits.
  - reflexivity.
Defined.

(** ** Reading one listing *)

Lemma filter_by_id (l : list Document) (id : ObjectId) :
  NoDup (map _id l) ->
  List.filter (fun d => Nat.eqb (_id d) id && true) l
  = match List.find (fun d => Nat.eqb (_id d) id) l with
    | Some d => [d]
    | None => []
    end.
Proof.
  induction l as [|x r IH]; simpl; [reflexivity|].
  intros H. inversion H as [|? ? Hn Hr]; subst.
  destruct (Nat.eqb_spec (_id x) id) as [E | _]; simpl; [|exact (IH Hr)].
  f_equal. rewrite (IH Hr).
  destruct (find (fun d => Nat.eqb (_id d) id) r) as [y|] eqn:F; [|reflexivity].
  apply find_some in F as [Hy Ey]. apply Nat.eqb_eq in Ey.
  destruct Hn. rewrite E, <- Ey. apply in_map, Hy.
Qed.

Lemma Get_byId (re : RegexEngine) (s : Mongoose.Store) (id : ObjectId) :
  wellFormed s ->
  Get.POST re s (byId id)
  = {| body := Listings (match lookup s id with Some d => [d] | None => [] end);
       status := 200 |}.
Proof.
  intros [Hnd _]. unfold Get.POST, Listing.find, Mongoose.find, lookup. simpl.
  rewrite (filter_by_id _ id Hnd).
  destruct (find _ (Mongoose.documents s)); reflexivity.
Qed.

(** X4: with unique identifiers, a get request for a [listingId] answers
    the one document under that identifier, or the empty array when there is
    none; the detail page shows that document, or its not-found notice. *)
Theorem get_by_listingId_is_lookup (re : RegexEngine) (s : Mongoose.Store)
  (id : ObjectId) :
  wellFormed s ->
  Get.POST re s (byId id)
  = {| body := Listings (match lookup s id with Some d => [d] | None => [] end);
       status := 200 |}
  /\ Post.listing re s id = lookup s id
  /\ (Post.listing re s id = None <->
      forall d, In d (Mongoose.documents s) -> _id d <> id).
Proof.
  intros H. pose proof (Get_byId re s id H) as E.
  assert (P : Post.listing re s id = lookup s id).
  { unfold Post.listing. rewrite E. simpl. destruct (lookup s id); reflexivity. }
  split; [exact E|]. split; [exact P|]. rewrite P. unfold lookup. split.
  - intros F d Hd. apply Nat.eqb_neq. exact (find_none _ _ F d Hd).
  - intros F. apply find_absent. intros d Hd. apply Nat.eqb_neq, F, Hd.
Qed.

Lemma sampleStore_wellFormed : wellFormed sampleStore.
Proof.
  split.
  - simpl. repeat constructor; simpl; intuition discriminate.
  - intros d [<- | [<- | [<- | []]]]; simpl; lia.
Qed.

Lemma get_by_listingId_witness :
  Get.POST Regex.engine sampleStore (byId 1%nat)
  = {| body := Listings
         (match lookup sampleStore 1%nat with Some d => [d] | None => [] end);
       status := 200 |}
  /\ Post.listing Regex.engine sampleStore 1%nat = lookup sampleStore 1%nat
  /\ (Post.listing Regex.engine sampleStore 1%nat = None <->
      forall d, In d (Mongoose.documents sampleStore) -> _id d <> 1%nat).
Proof.
  apply (get_by_listingId_is_lookup Regex.engine sampleStore 1%nat).
  exact sampleStore_wellFormed.
Defined.

(** ** Update *)

Lemma find_updateFirst_same (l : list Document) (id : ObjectId) (d d' : Document) :
  List.find (fun x => Nat.eqb (_id x) id) l = Some d ->
  _id d' = id ->
  List.find (fun x => Nat.eqb (_id x) id) (Mongoose.updateFirst id d' l) = Some d'.
Proof.
  intros H E. induction l as [|x r IH]; simpl in *; [discriminate|].
  destruct (Nat.eqb (_id x) id) eqn:F; simpl.
  - rewrite E, Nat.eqb_refl. reflexivity.
  - rewrite F. exact (IH H).
Qed.

Lemma find_updateFirst_other (l : list Document) (id j : ObjectId) (d' : Document) :
  j <> id -> _id d' = id ->
  List.find (fun x => Nat.eqb (_id x) j) (Mongoose.updateFirst id d' l)
  = List.find (fun x => Nat.eqb (_id x) j) l.
Proof.
  intros Hj E. induction l as [|x r IH]; simpl; [reflexivity|].
  destruct (Nat.eqb_spec (_id x) id) as [F | F]; simpl.
  - rewrite E. destruct (Nat.eqb_spec id j) as [G | _]; [congruence|].
    rewrite F. destruct (Nat.eqb_spec id j) as [G | _]; [congruence | reflexivity].
  - rewrite IH. reflexivity.
Qed.

Lemma map_id_updateFirst (l : list Document) (id : ObjectId) (d' : Document) :
  _id d' = id -> map _id (Mongoose.updateFirst id d' l) = map _id l.
Proof.
  intros E. induction l as [|x r IH]; simpl; [reflexivity|].
  destruct (Nat.eqb_spec (_id x) id) as [F | F]; simpl; congruence.
Qed.

Lemma find_id (l : list Document) (id : ObjectId) (d : Document) :
  List.find (fun x => Nat.eqb (_id x) id) l = Some d -> _id d = id.
Proof. intros H. apply find_some in H as [_ H]. apply Nat.eqb_eq, H. Qed.

Lemma duplicateKey_free (id : ObjectId) (d : Document) (f : FormData)
  (docs : list Document) :
  (forall x, In x docs -> _id x <> id ->
     unitName (fields x) <> unitName f /\ unitNumber (fields x) <> unitNumber f) ->
  Mongoose.duplicateKey id d f docs = false.
Proof.
  intros H. destruct (Mongoose.duplicateKey id d f docs) eqn:E; [|reflexivity].
  apply existsb_exists in E as [x [Hx E]].
  apply andb_true_iff in E as [Hid E]. apply negb_true_iff, Nat.eqb_neq in Hid.
  destruct (H x Hx Hid) as [Hn Hm].
  apply orb_true_iff in E as [E | E]; apply andb_true_iff in E as [_ E].
  - apply String.eqb_eq in E. contradiction.
  - apply Z.eqb_eq in E. contradiction.
Qed.

Lemma duplicateKey_same (id : ObjectId) (d : Document) (docs : list Document) :
  Mongoose.duplicateKey id d (fields d) docs = false.
Proof.
  destruct (Mongoose.duplicateKey id d (fields d) docs) eqn:E; [|reflexivity].
  apply existsb_exists in E as [x [_ E]].
  rewrite String.eqb_refl, Z.eqb_refl, andb_false_r in E. discriminate E.
Qed.

(** X5: an update of a listing that exists, to a unit name and number no
    other document carries, answers 200 with its identifier; afterwards the
    document under that identifier has the submitted fields and its old
    [updatedAt], every other identifier reads as before, and the documents
    keep their identifiers and order. *)
Theorem update_replaces_fields (now : Z) (s : Mongoose.Store)
  (data : Update.Data) (d : Document) :
  lookup s (Update.listingId data) = Some d ->
  (forall x, In x (Mongoose.documents s) -> _id x <> Update.listingId data ->
     unitName (fields x) <> unitName (Update.formData data)
     /\ unitNumber (fields x) <> unitNumber (Update.formData data)) ->
  snd (Update.POST now s data)
  = {| body := IdSuccess (Update.listingId data); status := 200 |}
  /\ lookup (fst (Update.POST now s data)) (Update.listingId data)
     = Some {| _id := Update.listingId data;
               fields := Update.formData data;
               updatedAt := updatedAt d |}
  /\ (forall j, j <> Update.listingId data ->
        lookup (fst (Update.POST now s data)) j = lookup s j)
  /\ map _id (Mongoose.documents (fst (Update.POST now s data)))
     = map _id (Mongoose.documents s).
Proof.
  unfold lookup. intros H Hfree. pose proof (find_id _ _ _ H) as E.
  unfold Update.POST, Listing.findByIdAndUpdate, Mongoose.findByIdAndUpdate.
  rewrite H, (duplicateKey_free _ d _ _ Hfree). simpl. rewrite E.
  split; [reflexivity|]. split; [|split].
  - apply (find_updateFirst_same _ _ d); [exact H | reflexivity].
  - intros j Hj. apply find_updateFirst_other; [exact Hj | reflexivity].
  - apply map_id_updateFirst. reflexivity.
Qed.

Lemma update_replaces_fields_witness :
  snd (Update.POST 2000 sampleStore
         {| Update.listingId := 1%nat; Update.formData := greenPark |})
  = {| body := IdSuccess 1%nat; status := 200 |}
  /\ lookup (fst (Update.POST 2000 sampleStore
                    {| Update.listingId := 1%nat; Update.formData := greenPark |}))
       1%nat
     = Some {| _id := 1%nat; fields := greenPark; updatedAt := None |}
  /\ (forall j, j <> 1%nat ->
        lookup (fst (Update.POST 2000 sampleStore
                       {| Update.listingId := 1%nat; Update.formData := greenPark |}))
          j
        = lookup sampleStore j)
  /\ map _id (Mongoose.documents
                (fst (Update.POST 2000 sampleStore
                        {| Update.listingId := 1%nat; Update.formData := greenPark |})))
     = map _id (Mongoose.documents sampleStore).
Proof.
  apply (update_replaces_fields 2000 sampleStore
           {| Update.listingId := 1%nat; Update.formData := greenPark |}
           (document 1%nat (listing "Tower 101" "Unit B" 202) None)).
  - reflexivity.
  - intros x [<- | [<- | [<- | []]]] _; split; discriminate.
Defined.

Lemma updateFirst_self (l : list Document) (d : Document) :
  List.find (fun x => Nat.eqb (_id x) (_id d)) l = Some d ->
  Mongoose.updateFirst (_id d) d l = l.
Proof.
  induction l as [|x r IH]; simpl; [reflexivity|].
  destruct (Nat.eqb (_id x) (_id d)).
  - intros [= ->]. reflexivity.
  - intros H. rewrite (IH H). reflexivity.
Qed.

(** X6: saving the edit form without a change changes nothing: an update
    of a listing with the fields it already has returns the store as it
    was. *)
Theorem update_with_same_fields_is_noop (now : Z) (s : Mongoose.Store)
  (d : Document) :
  lookup s (_id d) = Some d ->
  Update.POST now s {| Update.listingId := _id d; Update.formData := fields d |}
  = (s, {| body := IdSuccess (_id d); status := 200 |}).
Proof.
  unfold lookup, Update.POST, Listing.findByIdAndUpdate, Mongoose.findByIdAndUpdate.
  simpl. intros H. rewrite H, duplicateKey_same. simpl.
  assert (E : {| _id := _id d; fields := fields d; updatedAt := updatedAt d |} = d)
    by (destruct d; reflexivity).
  rewrite E, (updateFirst_self _ _ H). destruct s; reflexivity.
Qed.

Lemma update_with_same_fields_witness :
  Update.POST 2000 sampleStore
    {| Update.listingId := 0%nat; Update.formData := sunrise |}
  = (sampleStore, {| body := IdSuccess 0%nat; status := 200 |}).
Proof.
  apply (update_with_same_fields_is_noop 2000 sampleStore
           (document 0%nat sunrise (Some 300))).
  reflexivity.
Defined.

(** An update that moves a listing onto the unit name and number of another
    one is refused by the unique indexes: the answer is the 500 of the
    handler's catch clause and nothing is stored. *)
Example update_to_taken_unit_fails :
  Update.POST 2000 sampleStore
    {| Update.listingId := 1%nat; Update.formData := sunrise |}
  = (sampleStore, {| body := Failure "Error updating post"; status := 500 |}).
Proof. reflexivity. Qed.

(** ** Delete *)

Lemma find_removeFirst_same (l : list Document) (id : ObjectId) :
  NoDup (map _id l) ->
  List.find (fun x => Nat.eqb (_id x) id) (Mongoose.removeFirst id l) = None.
Proof.
  induction l as [|x r IH]; simpl; [reflexivity|].
  intros H. inversion H as [|? ? Hn Hr]; subst.
  destruct (Nat.eqb_spec (_id x) id) as [E | E]; simpl.
  - apply find_absent. intros y Hy. apply Nat.eqb_neq. intros F.
    apply Hn. rewrite E, <- F. apply in_map, Hy.
  - destruct (Nat.eqb_spec (_id x) id); [contradiction | exact (IH Hr)].
Qed.

Lemma find_removeFirst_other (l : list Document) (id j : ObjectId) :
  j <> id ->
  List.find (fun x => Nat.eqb (_id x) j) (Mongoose.removeFirst id l)
  = List.find (fun x => Nat.eqb (_id x) j) l.
Proof.
  intros Hj. induction l as [|x r IH]; simpl; [reflexivity|].
  destruct (Nat.eqb_spec (_id x) id) as [E | E]; simpl.
  - destruct (Nat.eqb_spec (_id x) j) as [F | _]; [congruence | reflexivity].
  - rewrite IH. reflexivity.
Qed.

Lemma delete_wellFormed (s : Mongoose.Store) (id : ObjectId) :
  wellFormed s -> wellFormed (fst (Delete.DELETE s id)).
Proof.
  intros [Hnd Hlt].
  unfold Delete.DELETE, Listing.findByIdAndDelete, Mongoose.findByIdAndDelete.
  destruct (find _ (Mongoose.documents s)) as [d0|]; simpl; [|split; assumption].
  split; simpl.
  - apply removeFirst_NoDup, Hnd.
  - intros d Hd. apply Hlt, (removeFirst_incl id), Hd.
Qed.

(** X7: a delete of a listing that exists answers 200; afterwards nothing
    is stored under its identifier, every other identifier reads as
    before, a get request for it answers the empty array, and a second
    delete of it answers 404. *)
Theorem delete_removes_listing (re : RegexEngine) (s : Mongoose.Store)
  (id : ObjectId) (d : Document) :
  wellFormed s ->
  lookup s id = Some d ->
  snd (Delete.DELETE s id)
  = {| body := Success "Property deleted successfully."; status := 200 |}
  /\ lookup (fst (Delete.DELETE s id)) id = None
  /\ (forall j, j <> id -> lookup (fst (Delete.DELETE s id)) j = lookup s j)
  /\ Get.POST re (fst (Delete.DELETE s id)) (byId id)
     = {| body := Listings []; status := 200 |}
  /\ snd (Delete.DELETE (fst (Delete.DELETE s id)) id)
     = {| body := Failure "Property not found."; status := 404 |}.
Proof.
  intros Hwf H.
  assert (L : lookup (fst (Delete.DELETE s id)) id = None).
  { unfold lookup, Delete.DELETE, Listing.findByIdAndDelete,
      Mongoose.findByIdAndDelete in *.
    rewrite H. simpl. apply find_removeFirst_same, Hwf. }
  split; [|split; [exact L|split; [|split]]].
  - unfold lookup, Delete.DELETE, Listing.findByIdAndDelete,
      Mongoose.findByIdAndDelete in *. rewrite H. reflexivity.
  - intros j Hj. unfold lookup, Delete.DELETE, Listing.findByIdAndDelete,
      Mongoose.findByIdAndDelete in *.
    rewrite H. simpl. apply find_removeFirst_other, Hj.
  - rewrite (Get_byId re _ id (delete_wellFormed s id Hwf)), L. reflexivity.
  - unfold lookup in L.
    unfold Delete.DELETE at 1, Listing.findByIdAndDelete, Mongoose.findByIdAndDelete.
    rewrite L. reflexivity.
Qed.

Lemma delete_removes_listing_witness :
  snd (Delete.DELETE sampleStore 1%nat)
  = {| body := Success "Property deleted successfully."; status := 200 |}
  /\ lookup (fst (Delete.DELETE sampleStore 1%nat)) 1%nat = None
  /\ (forall j, j <> 1%nat ->
        lookup (fst (Delete.DELETE sampleStore 1%nat)) j = lookup sampleStore j)
  /\ Get.POST Regex.engine (fst (Delete.DELETE sampleStore 1%nat)) (byId 1%nat)
     = {| body := Listings []; status := 200 |}
  /\ snd (Delete.DELETE (fst (Delete.DELETE sampleStore 1%nat)) 1%nat)
     = {| body := Failure "Property not found."; status := 404 |}.
Proof.
  apply (delete_removes_listing Regex.engine sampleStore 1%nat
           (document 1%nat (listing "Tower 101" "Unit B" 202) None)).
  - exact sampleStore_wellFormed.
  - reflexivity.
Defined.

(** X8: a delete whose [listingId] matches no document answers 404 and
    returns the store as it was. *)
Theorem delete_unknown_id_not_found (s : Mongoose.Store) (id : ObjectId) :
  (forall d, In d (Mongoose.documents s) -> _id d <> id) ->
  Delete.DELETE s id
  = (s, {| body := Failure "Property not found."; status := 404 |}).
Proof.
  intros H. unfold Delete.DELETE, Listing.findByIdAndDelete,
    Mongoose.findByIdAndDelete.
  rewrite find_absent; [reflexivity|].
  intros d Hd. apply Nat.eqb_neq, H, Hd.
Qed.

Lemma delete_unknown_id_witness :
  Delete.DELETE sampleStore 7%nat
  = (sampleStore, {| body := Failure "Property not found."; status := 404 |}).
Proof.
  apply (delete_unknown_id_not_found sampleStore 7%nat).
  intros d [<- | [<- | [<- | []]]]; discriminate.
Defined.

(** ** Pages *)

(** The answer to a request with a [startIndex] that is not negative and a
    positive [limit], both safe integers. *)
Lemma Get_POST_window (re : RegexEngine) (s : Mongoose.Store) (data : Get.Data)
  (a n : Z) :
  0 <= a <= maxSafeInteger -> 0 < n <= maxSafeInteger ->
  Get.POST re s (withWindow data a n)
  = match matching re data with
    | Some p =>
        {| body := Listings
             (firstn (Z.to_nat n)
                (skipn (Z.to_nat a)
                   (Mongoose.sortByUpdatedAt (Get.sortDirection data)
                      (List.filter p (Mongoose.documents s)))));
           status := 200 |}
    | None => {| body := Failure "Internal Server Error"; status := 500 |}
    end.
Proof.
  intros Ha Hn. rewrite Get_POST_eq. cbv zeta.
  change (matching re (withWindow data a n)) with (matching re data).
  change (Mongoose.skip (Get.query (withWindow data a n)))
    with (JS.orDefault (JS.parseInt (Some a)) 0).
  change (Mongoose.limit (Get.query (withWindow data a n)))
    with (JS.orDefault (JS.parseInt (Some n)) 9).
  change (Mongoose.sort (Get.query (withWindow data a n)))
    with (Get.sortDirection data).
  unfold maxSafeInteger in *.
  destruct (skip_of_startIndex (Some a)) as [-> ->].
  { intros x [= <-]. lia. }
  destruct (matching re data) as [p|]; [|reflexivity].
  rewrite (limit_of_limit (Some n)); [reflexivity|].
  intros x [= <-]. lia.
Qed.




(** X10: a [startIndex] at or past the number of matching documents
    ([startIndex] and [limit] safe integers) is answered 200 with the empty
    array. *)
Theorem page_past_the_end_is_empty (re : RegexEngine) (s : Mongoose.Store)
  (data : Get.Data) (p : Document -> bool) (a n : Z) :
  matching re data = Some p ->
  Z.of_nat (length (List.filter p (Mongoose.documents s))) <= a ->
  a <= maxSafeInteger ->
  0 < n <= maxSafeInteger ->
  Get.POST re s (withWindow data a n) = {| body := Listings []; status := 200 |}.
Proof.
  intros Hp Ha Ha' Hn. rewrite Get_POST_window, Hp by lia.
  rewrite skipn_all2; [rewrite firstn_nil; reflexivity|].
  rewrite <- (Permutation_length (sortByUpdatedAt_perm _ _)). lia.
Qed.

Lemma page_past_the_end_witness :
  Get.POST Regex.engine twentyStore (withWindow (request None None) 20 9)
  = {| body := Listings []; status := 200 |}.
Proof.
  apply (page_past_the_end_is_empty Regex.engine twentyStore (request None None)
           (fun _ => true) 20 9).
  - reflexivity.
  - simpl. lia.
  - unfold maxSafeInteger. lia.
  - unfold maxSafeInteger. lia.
Defined.

(** X11: a request from the start with a [limit], a safe integer, that
    covers the matching documents answers all of them: the answer is a
    rearrangement of the documents of the store that the filter selects. *)
Theorem large_limit_returns_every_match (re : RegexEngine) (s : Mongoose.Store)
  (data : Get.Data) (p : Document -> bool) (n : Z) :
  matching re data = Some p ->
  0 < n <= maxSafeInteger ->
  Z.of_nat (length (List.filter p (Mongoose.documents s))) <= n ->
  exists l,
    Get.POST re s (withWindow data 0 n) = {| body := Listings l; status := 200 |}
    /\ Permutation l (List.filter p (Mongoose.documents s)).
Proof.
  intros Hp Hn Hlen.
  rewrite Get_POST_window, Hp by (unfold maxSafeInteger in *; lia).
  eexists. split; [reflexivity|]. simpl skipn.
  rewrite firstn_all2.
  - apply Permutation_sym, sortByUpdatedAt_perm.
  - rewrite <- (Permutation_length (sortByUpdatedAt_perm _ _)). lia.
Qed.

Lemma large_limit_witness :
  exists l,
    Get.POST Regex.engine sampleStore (withWindow (request None None) 0 5)
    = {| body := Listings l; status := 200 |}
    /\ Permutation l (List.filter (fun _ => true) (Mongoose.documents sampleStore)).
Proof.
  apply (large_limit_returns_every_match Regex.engine sampleStore
           (request None None) (fun _ => true) 5).
  - reflexivity.
  - unfold maxSafeInteger. lia.
  - simpl. lia.
Defined.











(** * Properties of the pages *)

Lemma filter_all (p : Document -> bool) (l : list Document) :
  (forall d, p d = true) -> List.filter p l = l.
Proof.
  intros H. induction l as [|x r IH]; simpl; [reflexivity|].
  rewrite H, IH. reflexivity.
Qed.

(** X13: the request of the home page cannot fail: whatever the store and
    the engine, it is answered 200 with the first eight documents in
    ascending [updatedAt] order. *)
Theorem home_request_always_answered (re : RegexEngine) (s : Mongoose.Store) :
  Get.POST re s Home.request
  = {| body := Listings
         (firstn 8 (Mongoose.sortByUpdatedAt 1 (Mongoose.documents s)));
       status := 200 |}
  /\ (length (firstn 8 (Mongoose.sortByUpdatedAt 1 (Mongoose.documents s))) <= 8)%nat
  /\ StronglySorted notNewer
       (firstn 8 (Mongoose.sortByUpdatedAt 1 (Mongoose.documents s))).
Proof.
  split; [|split].
  - rewrite Get_POST_eq. cbv zeta.
    change (matching re Home.request) with (Some (fun _ : Document => true)).
    cbv iota beta. rewrite filter_all by reflexivity. reflexivity.
  - apply firstn_le_length.
  - apply (StronglySorted_firstn 1), (sortByUpdatedAt_sorted 1).
Qed.

(** X14: the search page shows the first nine matching documents, newest
    first, and offers "show more" exactly when at least nine documents
    match; when the request fails it shows nothing and offers nothing. *)
Theorem show_more_iff_nine_matches (re : RegexEngine) (s : Mongoose.Store)
  (sidebardata : SearchPage.SidebarData) :
  match matching re (SearchPage.fetchBody sidebardata) with
  | Some p =>
      SearchPage.fetchListings re s sidebardata
      = (firstn 9 (Mongoose.sortByUpdatedAt (-1)
                     (List.filter p (Mongoose.documents s))),
         (9 <=? length (List.filter p (Mongoose.documents s)))%nat)
  | None => SearchPage.fetchListings re s sidebardata = ([], false)
  end.
Proof.
  unfold SearchPage.fetchListings. rewrite Get_POST_eq. cbv zeta.
  change (Mongoose.skip (Get.query (SearchPage.fetchBody sidebardata))) with 0.
  change (0 <? 0) with false. cbv iota.
  destruct (matching re (SearchPage.fetchBody sidebardata)) as [p|]; [|reflexivity].
  change (Mongoose.limit (Get.query (SearchPage.fetchBody sidebardata))) with 9.
  change (Mongoose.sort (Get.query (SearchPage.fetchBody sidebardata))) with (-1).
  change (Mongoose.applyLimit 9) with (@firstn Document 9).
  change (Z.to_nat 0) with 0%nat.
  remember (Mongoose.sortByUpdatedAt (-1) (List.filter p (Mongoose.documents s)))
    as L eqn:HL.
  change (skipn 0 L) with L.
  remember (firstn 9 L) as page eqn:Hpage.
  cbn [status body].
  change (negb ((200 <=? 200) && (200 <=? 299))) with false. cbv iota.
  f_equal. subst page. rewrite length_firstn.
  assert (E : length L = length (List.filter p (Mongoose.documents s))).
  { subst L. symmetry. apply Permutation_length, sortByUpdatedAt_perm. }
  rewrite E.
  destruct (Nat.leb_spec 9 (length (List.filter p (Mongoose.documents s))));
    [apply Nat.ltb_lt | apply Nat.ltb_ge]; lia.
Qed.

(** ** The query string of the search page *)

Lemma isTrue_boolToString (b : bool) :
  SearchPage.isTrue (Some (boolToString b)) = b.
Proof. destruct b; reflexivity. Qed.

(** X15: submitting the search form and reading the query string back
    restores the search term and the [sell], [rent], [furnished] and [offer]
    flags, and resets [parkingSpot]: the form writes it under [parking] and
    the page reads [parkingSpot]. *)
Theorem search_form_round_trip (sidebardata previous : SearchPage.SidebarData) :
  SearchPage.readParams (SearchPage.handleSubmit sidebardata) previous
  = {| SearchPage.searchTerm := SearchPage.searchTerm sidebardata;
       SearchPage.sell := SearchPage.sell sidebardata;
       SearchPage.rent := SearchPage.rent sidebardata;
       SearchPage.parkingSpot := false;
       SearchPage.furnished := SearchPage.furnished sidebardata;
       SearchPage.offer := SearchPage.offer sidebardata |}.
Proof.
  destruct sidebardata as [t b1 b2 b3 b4 b5].
  unfold SearchPage.readParams, SearchPage.handleSubmit. cbn.
  destruct b1, b2, b3, b4, b5, t; reflexivity.
Qed.

(** ** The query string of the header *)

Lemma get_remove_other (name other : string) (p : URLSearchParams.t) :
  other <> name ->
  URLSearchParams.get other (URLSearchParams.remove name p)
  = URLSearchParams.get other p.
Proof.
  intros H. induction p as [|[n v] r IH]; simpl; [reflexivity|].
  destruct (String.eqb_spec n name) as [-> | Hn]; simpl.
  - destruct (String.eqb_spec name other) as [E | _]; [congruence | exact IH].
  - rewrite IH. reflexivity.
Qed.

Lemma get_set_same (name value : string) (p : URLSearchParams.t) :
  URLSearchParams.get name (URLSearchParams.set name value p) = Some value.
Proof.
  induction p as [|[n v] r IH]; simpl.
  - rewrite String.eqb_refl. reflexivity.
  - destruct (String.eqb_spec n name) as [-> | Hn]; simpl.
    + rewrite String.eqb_refl. reflexivity.
    + destruct (String.eqb_spec n name); [contradiction | exact IH].
Qed.

Lemma get_set_other (name other value : string) (p : URLSearchParams.t) :
  other <> name ->
  URLSearchParams.get other (URLSearchParams.set name value p)
  = URLSearchParams.get other p.
Proof.
  intros H. induction p as [|[n v] r IH]; simpl.
  - destruct (String.eqb_spec name other) as [E | _]; [congruence | reflexivity].
  - destruct (String.eqb_spec n name) as [-> | Hn]; simpl.
    + destruct (String.eqb_spec name other) as [E | _]; [congruence|].
      apply get_remove_other, H.
    + rewrite IH. reflexivity.
Qed.

(** X16: a search from the header puts the term under [searchTerm] and
    keeps every other parameter of the current query string; the search
    page then takes a term that is not empty as its search term and each
    flag from the parameter of its name ([parkingSpot] included). *)
Theorem header_search_keeps_parameters (searchParams : URLSearchParams.t)
  (term : string) (previous : SearchPage.SidebarData) :
  URLSearchParams.get "searchTerm" (Header.handleSubmit searchParams term)
  = Some term
  /\ (forall name, name <> "searchTerm" ->
        URLSearchParams.get name (Header.handleSubmit searchParams term)
        = URLSearchParams.get name searchParams)
  /\ (term <> "" ->
      SearchPage.readParams (Header.handleSubmit searchParams term) previous
      = {| SearchPage.searchTerm := term;
           SearchPage.sell :=
             SearchPage.isTrue (URLSearchParams.get "sell" searchParams);
           SearchPage.rent :=
             SearchPage.isTrue (URLSearchParams.get "rent" searchParams);
           SearchPage.parkingSpot :=
             SearchPage.isTrue (URLSearchParams.get "parkingSpot" searchParams);
           SearchPage.furnished :=
             SearchPage.isTrue (URLSearchParams.get "furnished" searchParams);
           SearchPage.offer :=
             SearchPage.isTrue (URLSearchParams.get "offer" searchParams) |}).
Proof.
  unfold Header.handleSubmit. split; [apply get_set_same|]. split.
  - intros name H. apply get_set_other, H.
  - intros H. unfold SearchPage.readParams.
    rewrite get_set_same, !get_set_other by discriminate.
    destruct term as [|c r]; [congruence|]. reflexivity.
Qed.

Lemma header_search_witness :
  URLSearchParams.get "searchTerm"
    (Header.handleSubmit [("sell", "true"); ("searchTerm", "old")] "sunrise")
  = Some "sunrise"
  /\ (forall name, name <> "searchTerm" ->
        URLSearchParams.get name
          (Header.handleSubmit [("sell", "true"); ("searchTerm", "old")] "sunrise")
        = URLSearchParams.get name [("sell", "true"); ("searchTerm", "old")])
  /\ ("sunrise" <> "" ->
      SearchPage.readParams
        (Header.handleSubmit [("sell", "true"); ("searchTerm", "old")] "sunrise")
        SearchPage.initial
      = {| SearchPage.searchTerm := "sunrise";
           SearchPage.sell := true;
           SearchPage.rent := false;
           SearchPage.parkingSpot := false;
           SearchPage.furnished := false;
           SearchPage.offer := false |}).
Proof.
  exact (header_search_keeps_parameters
           [("sell", "true"); ("searchTerm", "old")] "sunrise" SearchPage.initial).
Defined.

(** * Properties of the connection *)

Lemma connect_first (d : Connection.Promise) :
  settled (snd (Connection.connect d Connection.fresh))
    (fst (Connection.connect d Connection.fresh)).
Proof. destruct d as [|err]; repeat split. Qed.

Lemma connect_settled (o : Connection.Outcome) (g : Connection.Global)
  (d : Connection.Promise) :
  settled o g ->
  snd (Connection.connect d g) = o /\ settled o (fst (Connection.connect d g)).
Proof.
  intros [Ha [Hs Ho]]. unfold Connection.connect. destruct o as [|err].
  - rewrite Ho. simpl. repeat split; assumption.
  - destruct Ho as [Hc Hp]. rewrite Hc, Hp. simpl. rewrite Hp.
    repeat split; assumption.
Qed.

Lemma connectAll_settled (o : Connection.Outcome) (ds : list Connection.Promise)
  (g : Connection.Global) :
  settled o g -> settled o (Connection.connectAll g ds).
Proof.
  unfold Connection.connectAll. revert g.
  induction ds as [|d ds IH]; intros g H; [exact H|].
  simpl. apply IH. exact (proj2 (connect_settled o g d H)).
Qed.

(** X17: the first [connect] of a process decides every later one: after
    any number of further calls the next call has the outcome of the first,
    whatever the driver would answer by then, and [mongoose.connect] has
    been called once.  A first attempt that fails is never retried. *)
Theorem first_connect_decides (d d' : Connection.Promise)
  (ds : list Connection.Promise) :
  snd (Connection.connect d'
         (Connection.connectAll (fst (Connection.connect d Connection.fresh)) ds))
  = snd (Connection.connect d Connection.fresh)
  /\ snd (Connection.connect d Connection.fresh)
     = match d with
       | Connection.Resolved => Connection.Connected
       | Connection.Rejected err => Connection.Throws err
       end
  /\ Connection.attempts
       (fst (Connection.connect d'
               (Connection.connectAll
                  (fst (Connection.connect d Connection.fresh)) ds)))
     = 1%nat
  /\ Connection.strictQuery
       (Connection.connectAll (fst (Connection.connect d Connection.fresh)) ds)
     = true.
Proof.
  pose proof (connectAll_settled _ ds _ (connect_first d)) as H.
  destruct (connect_settled _ _ d' H) as [E [A _]].
  split; [exact E|]. split; [destruct d; reflexivity|]. split; [exact A|].
  apply H.
Qed.

(** X18: once the connection attempt has failed, create and update answer
    their 500 and leave the store alone, and get and delete answer nothing:
    the error escapes the handler. *)
Theorem failed_connection_answers (re : RegexEngine) (err : string)
  (ds : list Connection.Promise) (d : Connection.Promise) (now : Z)
  (s : Mongoose.Store) :
  let g := Connection.connectAll
             (fst (Connection.connect (Connection.Rejected err) Connection.fresh))
             ds in
  (forall data,
     Route.create d g now s data
     = (g, s, {| body := Failure "Internal Server Error. Please try again later.";
                 status := 500 |}))
  /\ (forall data,
        Route.update d g now s data
        = (g, s, {| body := Failure "Error updating post"; status := 500 |}))
  /\ (forall data, Route.get re d g s data = (g, None))
  /\ (forall id, Route.delete d g s id = (g, s, None)).
Proof.
  intros g.
  assert (H : Connection.connect d g = (g, Connection.Throws err)).
  { pose proof (connectAll_settled _ ds _
                  (connect_first (Connection.Rejected err))) as [_ [_ [Hc Hp]]].
    fold g in Hc, Hp. unfold Connection.connect. rewrite Hc, Hp. simpl.
    rewrite Hp. reflexivity. }
  unfold Route.create, Route.update, Route.get, Route.delete. rewrite H.
  repeat split.
Qed.

(** On a live connection each route answers what its handler answers and
    leaves the connection state as it is. *)
Lemma live_connection_answers (re : RegexEngine)
  (ds : list Connection.Promise) (d : Connection.Promise) (now : Z)
  (s : Mongoose.Store) :
  let g := Connection.connectAll
             (fst (Connection.connect Connection.Resolved Connection.fresh)) ds in
  (forall data,
     Route.create d g now s data
     = (g, fst (Create.POST now s data), snd (Create.POST now s data)))
  /\ (forall data,
        Route.update d g now s data
        = (g, fst (Update.POST now s data), snd (Update.POST now s data)))
  /\ (forall data, Route.get re d g s data = (g, Some (Get.POST re s data)))
  /\ (forall id,
        Route.delete d g s id
        = (g, fst (Delete.DELETE s id), Some (snd (Delete.DELETE s id)))).
Proof.
  intros g.
  assert (H : Connection.connect d g = (g, Connection.Connected)).
  { pose proof (connectAll_settled _ ds _
                  (connect_first Connection.Resolved)) as [_ [_ Hc]].
    fold g in Hc. simpl in Hc. unfold Connection.connect. rewrite Hc. reflexivity. }
  unfold Route.create, Route.update, Route.get, Route.delete. rewrite H.
  split; [|split; [|split]].
  - intros data. destruct (Create.POST now s data). reflexivity.
  - intros data. destruct (Update.POST now s data). reflexivity.
  - reflexivity.
  - intros id. destruct (Delete.DELETE s id). reflexivity.
Qed.

(** * Properties of the search term *)

Lemma trimStart_clean (t : string) : startsClean (JS.trimStart t).
Proof.
  induction t as [|c r IH]; simpl; [exact I|].
  destruct (JS.isWhiteSpace c) eqn:E; [exact IH | exact E].
Qed.

Lemma trimStart_of_clean (x : string) : startsClean x -> JS.trimStart x = x.
Proof. destruct x as [|c r]; simpl; [reflexivity|]. intros ->. reflexivity. Qed.

Lemma trimEnd_idem (x : string) : JS.trimEnd (JS.trimEnd x) = JS.trimEnd x.
Proof.
  induction x as [|c r IH]; simpl; [reflexivity|].
  destruct (JS.trimEnd r) as [|c' r'] eqn:E.
  - destruct (JS.isWhiteSpace c) eqn:W; simpl; [reflexivity|]. rewrite W. reflexivity.
  - simpl in *. rewrite IH. reflexivity.
Qed.

Lemma trimEnd_clean (x : string) : startsClean x -> startsClean (JS.trimEnd x).
Proof.
  destruct x as [|c r]; simpl; [auto|]. intros W.
  destruct (JS.trimEnd r); [rewrite W|]; exact W.
Qed.

Lemma trim_idem (t : string) : JS.trim (JS.trim t) = JS.trim t.
Proof.
  unfold JS.trim.
  rewrite (trimStart_of_clean _ (trimEnd_clean _ (trimStart_clean t))).
  apply trimEnd_idem.
Qed.

(** X19: white space around the search term never changes the answer: a
    request is answered as the same request with its search term
    trimmed. *)
Theorem surrounding_white_space_is_ignored (re : RegexEngine)
  (s : Mongoose.Store) (data : Get.Data) (t : string) :
  Get.POST re s (withSearchTerm data (Some t))
  = Get.POST re s (withSearchTerm data (Some (JS.trim t))).
Proof.
  unfold Get.POST, Get.query.
  assert (E : Get.searchTermKey (withSearchTerm data (Some t))
              = Get.searchTermKey (withSearchTerm data (Some (JS.trim t)))).
  { unfold Get.searchTermKey, Get.isNumericSearch, withSearchTerm. cbn [Get.searchTerm].
    change (option_map JS.trim (Some t)) with (Some (JS.trim t)).
    change (option_map JS.trim (Some (JS.trim t))) with (Some (JS.trim (JS.trim t))).
    rewrite trim_idem. reflexivity. }
  change (Get.userIdKey (withSearchTerm data (Some t)))
    with (Get.userIdKey (withSearchTerm data (Some (JS.trim t)))).
  change (Get.listingIdKey (withSearchTerm data (Some t)))
    with (Get.listingIdKey (withSearchTerm data (Some (JS.trim t)))).
  rewrite E. reflexivity.
Qed.

Lemma digit_not_white (c : ascii) : isDigit c = true -> JS.isWhiteSpace c = false.
Proof. destruct c as [[] [] [] [] [] [] [] []]; intros H; try reflexivity; discriminate H. Qed.

Lemma digit_value (c : ascii) :
  isDigit c = true -> JS.decimalDigit c = Some (Z.of_N (N_of_ascii c) - 48).
Proof. destruct c as [[] [] [] [] [] [] [] []]; intros H; try reflexivity; discriminate H. Qed.

Lemma trimEnd_digits (t : string) :
  Regex.allChars isDigit t = true -> JS.trimEnd t = t.
Proof.
  induction t as [|c r IH]; simpl; [reflexivity|].
  intros H. apply andb_true_iff in H as [Hc Hr]. rewrite (IH Hr).
  destruct r; [rewrite (digit_not_white _ Hc)|]; reflexivity.
Qed.

Lemma trim_digits (t : string) :
  Regex.allChars isDigit t = true -> JS.trim t = t.
Proof.
  intros H. unfold JS.trim. rewrite trimStart_of_clean; [exact (trimEnd_digits t H)|].
  destruct t as [|c r]; [exact I|]. simpl in *.
  apply andb_true_iff in H as [Hc _]. exact (digit_not_white _ Hc).
Qed.

Lemma spanDigits_digits (t : string) :
  Regex.allChars isDigit t = true -> JS.spanDigits t = (t, EmptyString).
Proof.
  induction t as [|c r IH]; simpl; [reflexivity|].
  intros H. apply andb_true_iff in H as [Hc Hr].
  rewrite (digit_value _ Hc), (IH Hr). reflexivity.
Qed.

Lemma digitsValue_digits (t : string) (acc : Z) :
  Regex.allChars isDigit t = true ->
  JS.digitsValue 10 JS.decimalDigit acc t = Some (decimalValue acc t).
Proof.
  revert acc. induction t as [|c r IH]; intros acc; simpl; [reflexivity|].
  intros H. apply andb_true_iff in H as [Hc Hr].
  rewrite (digit_value _ Hc). exact (IH _ Hr).
Qed.

Lemma append_empty (t : string) : (t ++ "")%string = t.
Proof. induction t as [|c r IH]; simpl; [|rewrite IH]; reflexivity. Qed.

Lemma decimalValue_nonneg (t : string) (acc : Z) :
  Regex.allChars isDigit t = true -> 0 <= acc -> 0 <= decimalValue acc t.
Proof.
  revert acc. induction t as [|c r IH]; intros acc H Ha; cbn [decimalValue];
    [exact Ha|].
  cbn [Regex.allChars] in H. apply andb_true_iff in H as [Hc Hr].
  apply IH; [exact Hr|].
  unfold isDigit, JS.decimalDigit in Hc. cbv zeta in Hc.
  remember (Z.of_N (N_of_ascii c)) as x eqn:Hx.
  destruct (Z.leb_spec 48 x); [lia | discriminate Hc].
Qed.

Lemma roundBinary64_safe (v : Z) :
  0 <= v <= maxSafeInteger ->
  JS.roundBinary64 (Qmult (inject_Z v) (inject_Z 1))
  = JS.Finite (Qmult (inject_Z v) (inject_Z 1)).
Proof.
  intros Hv. unfold maxSafeInteger in Hv. unfold JS.roundBinary64.
  change (Qnum (Qmult (inject_Z v) (inject_Z 1))) with (v * 1).
  change (Zpos (Qden (Qmult (inject_Z v) (inject_Z 1)))) with 1.
  change (1 =? 1) with true.
  destruct (Z.leb_spec (Z.abs (v * 1)) 9007199254740992); [reflexivity | lia].
Qed.

Lemma unsignedDecimal_digits (c : ascii) (r : string) :
  Regex.allChars isDigit (String c r) = true ->
  decimalValue 0 (String c r) <= maxSafeInteger ->
  exists q, JS.unsignedDecimal (String c r) = JS.Finite q
            /\ Qeq q (inject_Z (decimalValue 0 (String c r))).
Proof.
  intros H Hv. pose proof (decimalValue_nonneg _ 0 H (Z.le_refl 0)) as H0.
  unfold JS.unsignedDecimal.
  assert (E : String.eqb (String c r) "Infinity" = false).
  { simpl in H. apply andb_true_iff in H as [Hc _]. simpl.
    destruct c as [[] [] [] [] [] [] [] []]; try reflexivity; discriminate Hc. }
  rewrite E, (spanDigits_digits _ H), append_empty.
  rewrite (digitsValue_digits _ 0 H).
  change (JS.exponentPart "") with (Some 0).
  change (0 - Z.of_nat (String.length "")) with 0.
  change (400 <? 0) with false.
  change (inject_Z 10 ^ 0)%Q with (inject_Z 1).
  cbv iota beta zeta.
  destruct (Z.eqb_spec (decimalValue 0 (String c r)) 0) as [Ez | _].
  - eexists. split; [reflexivity|]. rewrite Ez. reflexivity.
  - destruct (Z.ltb_spec (0 + Z.of_nat (String.length (String c r))) (-400)); [lia|].
    rewrite roundBinary64_safe by lia.
    eexists. split; [reflexivity | apply Qmult_1_r].
Qed.

Lemma strNumericLiteral_digits (t : string) :
  t <> "" -> Regex.allChars isDigit t = true ->
  JS.strNumericLiteral t = JS.unsignedDecimal t.
Proof.
  destruct t as [|c r]; [congruence|]. intros _ H. simpl in H.
  apply andb_true_iff in H as [Hc Hr].
  destruct c as [[] [] [] [] [] [] [] []]; try discriminate Hc; try reflexivity.
  destruct r as [|c2 r2]; [reflexivity|]. simpl in Hr.
  apply andb_true_iff in Hr as [Hc2 _].
  destruct c2 as [[] [] [] [] [] [] [] []]; try discriminate Hc2; reflexivity.
Qed.

Lemma Number_digits (t : string) :
  t <> "" -> Regex.allChars isDigit t = true ->
  decimalValue 0 t <= maxSafeInteger ->
  exists q, JS.Number (Some t) = JS.Finite q
            /\ Qeq q (inject_Z (decimalValue 0 t)).
Proof.
  intros Hne H Hv. unfold JS.Number.
  rewrite (trim_digits t H), (strNumericLiteral_digits t Hne H).
  destruct t as [|c r]; [congruence|]. exact (unsignedDecimal_digits c r H Hv).
Qed.

Lemma equalsNumber_of_Qeq (q : Q) (v z : Z) :
  Qeq q (inject_Z v) -> (equalsNumber (JS.Finite q) z <-> z = v).
Proof.
  intros Hq. unfold equalsNumber. split.
  - intros [q' [[= <-] H]]. rewrite Hq in H.
    symmetry. apply inject_Z_injective. exact H.
  - intros ->. exists q. split; [reflexivity | exact Hq].
Qed.

(** X20: a search term made of decimal digits that denote a safe integer
    is always a search by unit number: the search key is the single entry
    [unitNumber] = the integer the digits denote, and every listing of the
    answer has that [unitNumber]. *)
Theorem digit_term_searches_unit_number (re : RegexEngine) (s : Mongoose.Store)
  (data : Get.Data) (t : string) :
  t <> "" ->
  Regex.allChars isDigit t = true ->
  decimalValue 0 t <= maxSafeInteger ->
  Get.searchTermKey (withSearchTerm data (Some t))
  = [Or [Eq_unitNumber (JS.Number (Some t))]]
  /\ (forall z, equalsNumber (JS.Number (Some t)) z <-> z = decimalValue 0 t)
  /\ (forall l d,
        Get.POST re s (withSearchTerm data (Some t))
        = {| body := Listings l; status := 200 |} ->
        In d l -> unitNumber (fields d) = decimalValue 0 t).
Proof.
  intros Hne H Hv. destruct (Number_digits t Hne H Hv) as [q [N Hq]].
  assert (K : Get.searchTermKey (withSearchTerm data (Some t))
              = [Or [Eq_unitNumber (JS.Number (Some t))]]).
  { unfold Get.searchTermKey, Get.isNumericSearch, withSearchTerm. cbn [Get.searchTerm].
    change (option_map JS.trim (Some t)) with (Some (JS.trim t)).
    rewrite (trim_digits t H), N. destruct t; [congruence | reflexivity]. }
  assert (V : forall z, equalsNumber (JS.Number (Some t)) z <-> z = decimalValue 0 t).
  { intros z. rewrite N. apply equalsNumber_of_Qeq, Hq. }
  split; [exact K|]. split; [exact V|].
  intros l d Hl Hd.
  destruct (matching_with_key re (withSearchTerm data (Some t)) _
              (fun d => numberEqZ (JS.Number (Some t)) (unitNumber (fields d)) || false)
              K eq_refl eq_refl) as [p0 [p [_ [Hp Hpd]]]].
  destruct (Get_POST_In re s _ l p Hl Hp d Hd) as [_ Hd'].
  apply Hpd in Hd' as [_ Hd']. rewrite orb_false_r in Hd'.
  apply numberEqZ_spec, V in Hd'. exact Hd'.
Qed.

Lemma digit_term_witness :
  Get.searchTermKey (withSearchTerm (request None None) (Some "101"))
  = [Or [Eq_unitNumber (JS.Number (Some "101"))]]
  /\ (forall z, equalsNumber (JS.Number (Some "101")) z <-> z = decimalValue 0 "101")
  /\ (forall l d,
        Get.POST Regex.engine sampleStore
          (withSearchTerm (request None None) (Some "101"))
        = {| body := Listings l; status := 200 |} ->
        In d l -> unitNumber (fields d) = decimalValue 0 "101").
Proof.
  apply (digit_term_searches_unit_number Regex.engine sampleStore
           (request None None) "101").
  - discriminate.
  - reflexivity.
  - unfold maxSafeInteger. simpl. lia.
Defined.

Example decimalValue_101 : decimalValue 0 "101" = 101.
Proof. reflexivity. Qed.

(** Past the safe integers the digits no longer denote themselves:
    [Number("9007199254740993")] is 9007199254740992, so that the term
    finds the listing of that unit number. *)
Example Number_rounds_to_even :
  JS.Number (Some "9007199254740993") = JS.Finite (inject_Z 9007199254740992)
  /\ equalsNumber (JS.Number (Some "9007199254740993")) 9007199254740992.
Proof.
  split; [vm_compute; reflexivity|].
  exists (inject_Z 9007199254740992). split; [vm_compute; reflexivity | reflexivity].
Qed.

(** [Number("1e-400")] is 0 and [Number("1e400")] is [Infinity]. *)
Example Number_underflow_overflow :
  JS.Number (Some "1e-400") = JS.Finite (inject_Z 0)
  /\ JS.Number (Some "1e400") = JS.Infinity false.
Proof. split; vm_compute; reflexivity. Qed.

(** * How the requests compose *)

(** X21: what a create has stored blocks the next create: after a
    successful create, a candidate with the same [unitName] is answered
    [DuplicateUnitName], and a candidate with another [unitName] that no
    document has but the same [unitNumber] is answered
    [DuplicateUnitNumber]; the store stays as the first create left it. *)
Theorem second_create_is_rejected (now now' : Z) (s : Mongoose.Store)
  (data data' : FormData) :
  ok (snd (Create.POST now s data)) = true ->
  (unitName data' = unitName data ->
   Create.POST now' (fst (Create.POST now s data)) data'
   = (fst (Create.POST now s data), DuplicateUnitName))
  /\ ((forall d, In d (Mongoose.documents (fst (Create.POST now s data))) ->
                 unitName (fields d) <> unitName data') ->
      unitNumber data' = unitNumber data ->
      Create.POST now' (fst (Create.POST now s data)) data'
      = (fst (Create.POST now s data), DuplicateUnitNumber)).
Proof.
  intros H.
  destruct (Create.POST now s data) as [s' r] eqn:E. simpl in *.
  assert (Hr : r = {| body := IdSuccess (Mongoose.nextId s); status := 200 |}
               /\ In (document (Mongoose.nextId s) data None) (Mongoose.documents s')).
  { rewrite Create_POST_unfold in E.
    destruct (Listing.findOne _ s); [injection E as _ <-; discriminate H|].
    destruct (Listing.findOne _ s); [injection E as _ <-; discriminate H|].
    destruct (validate data); injection E as <- <-; [|discriminate H].
    split; [reflexivity|]. simpl. apply in_or_app. right. left. reflexivity. }
  destruct Hr as [_ Hin].
  unfold Create.POST, Listing.findOne, Mongoose.findOne. split.
  - intros En.
    destruct (find_exists
                (fun d => String.eqb (unitName (fields d)) (unitName data'))
                (Mongoose.documents s')) as [x ->]; [|reflexivity].
    eexists. split; [exact Hin|]. simpl. apply String.eqb_eq. congruence.
  - intros Hname En. rewrite find_absent.
    + destruct (find_exists
                  (fun d => Z.eqb (unitNumber (fields d)) (unitNumber data'))
                  (Mongoose.documents s')) as [x ->]; [|reflexivity].
      eexists. split; [exact Hin|]. simpl. apply Z.eqb_eq. congruence.
    + intros x Hx. apply String.eqb_neq, Hname, Hx.
Qed.

Lemma second_create_witness :
  Create.POST 2000 (fst (Create.POST 1000 sampleStore greenPark)) greenPark
  = (fst (Create.POST 1000 sampleStore greenPark), DuplicateUnitName)
  /\ Create.POST 2000 (fst (Create.POST 1000 sampleStore greenPark))
       (listing "Green Park" "Unit D" 404)
     = (fst (Create.POST 1000 sampleStore greenPark), DuplicateUnitNumber).
Proof.
  split.
  - apply (proj1 (second_create_is_rejected 1000 2000 sampleStore greenPark
                    greenPark eq_refl)).
    reflexivity.
  - apply (proj2 (second_create_is_rejected 1000 2000 sampleStore greenPark
                    (listing "Green Park" "Unit D" 404) eq_refl)).
    + intros d Hd. simpl in Hd.
      destruct Hd as [<- | [<- | [<- | [<- | []]]]]; discriminate.
    + reflexivity.
Defined.

Lemma removeFirst_distinct {A : Type} (f : Document -> A) (l : list Document)
  (d : Document) :
  NoDup (map f l) ->
  List.find (fun x => Nat.eqb (_id x) (_id d)) l = Some d ->
  forall x, In x (Mongoose.removeFirst (_id d) l) -> f x <> f d.
Proof.
  induction l as [|y r IH]; simpl; [discriminate|].
  intros H F x Hx. inversion H as [|? ? Hn Hr]; subst.
  destruct (Nat.eqb (_id y) (_id d)).
  - injection F as ->. intros E. apply Hn. rewrite <- E. apply in_map, Hx.
  - destruct Hx as [<- | Hx].
    + intros E. apply Hn. rewrite E. apply in_map.
      apply find_some in F. apply F.
    + exact (IH Hr F x Hx).
Qed.

(** X22: a delete releases the unit: in a store without duplicate unit
    names and numbers, the fields of a listing that has just been deleted
    are accepted by create again (there is no soft delete), provided they
    pass the schema's validation, that is, the required strings of the
    listing are not empty. *)
Theorem deleted_unit_can_be_created_again (now : Z) (s : Mongoose.Store)
  (d : Document) :
  uniqueUnits s ->
  lookup s (_id d) = Some d ->
  validate (fields d) = true ->
  ok (snd (Create.POST now (fst (Delete.DELETE s (_id d))) (fields d))) = true.
Proof.
  intros [Hname Hnum] L V. unfold lookup in L.
  unfold Delete.DELETE, Listing.findByIdAndDelete, Mongoose.findByIdAndDelete.
  rewrite L. simpl.
  rewrite Create_POST_unfold. unfold Listing.findOne, Mongoose.findOne. simpl.
  rewrite find_absent.
  - rewrite find_absent.
    + rewrite V. reflexivity.
    + intros x Hx. apply Z.eqb_neq.
      exact (removeFirst_distinct (fun d => unitNumber (fields d)) _ d Hnum L x Hx).
  - intros x Hx. apply String.eqb_neq.
    exact (removeFirst_distinct (fun d => unitName (fields d)) _ d Hname L x Hx).
Qed.

Lemma deleted_unit_witness :
  ok (snd (Create.POST 2000 (fst (Delete.DELETE sampleStore 0%nat)) sunrise)) = true.
Proof.
  apply (deleted_unit_can_be_created_again 2000 sampleStore
           (document 0%nat sunrise (Some 300))).
  - exact sampleStore_uniqueUnits.
  - reflexivity.
  - reflexivity.
Defined.

(** X23: the [userId] of a request selects nothing: [userId] is not a path
    of [listingSchema] and [connect] turns [strictQuery] on, so the key is
    dropped and the request is answered as the same request without it. *)
Theorem userId_never_filters (re : RegexEngine) (s : Mongoose.Store)
  (data : Get.Data) (u : option string) :
  Get.POST re s (withUserId data u) = Get.POST re s (withUserId data None).
Proof.
  unfold Get.POST, Listing.find, Mongoose.find.
  assert (E : Mongoose.castFilter listingSchema
                (Mongoose.filter (Get.query (withUserId data u)))
              = Mongoose.castFilter listingSchema
                  (Mongoose.filter (Get.query (withUserId data None)))).
  { unfold Get.query. cbn [Mongoose.filter]. rewrite !castFilter_app.
    f_equal. unfold Get.userIdKey, withUserId. cbn [Get.userId].
    destruct u as [x|]; [|reflexivity]. destruct (JS.truthy x); reflexivity. }
  rewrite E. reflexivity.
Qed.
